(** * Verification of [app/services/auth.py]

    A shallow embedding of the authentication service: password checking,
    the token issuer ([Token]) built on a pluggable codec ([TokenCoder]),
    and the [Auth] service with its refresh rotation, followed by the
    properties the specification states about them.

    Python exceptions are values of the type [exn]; a computation that can
    raise returns [Result A = exn + A].  Code that touches the database
    session or reads the clock lives in the monad [M], a state monad over
    [World] combined with exceptions: state changes made before a [raise]
    survive it, as a committed session does. *)

From Stdlib Require Import ZArith String List Bool Lia.
From stdpp Require Import base option gmap strings.
From Ceres Require Import Ceres.
Import ListNotations.
Local Open Scope Z_scope.
Local Open Scope string_scope.

(** ** Values, dictionaries, exceptions *)

(** [class TokenScopes(Enum)]. *)
Inductive TokenScopes : Type :=
| ACCESS
| REFRESH.

(** [scope.value]. *)
Definition scope_value (s : TokenScopes) : string :=
  match s with
  | ACCESS => "access_token"
  | REFRESH => "refresh_token"
  end.

(** The Python values that occur in a claims dictionary.  A [datetime] is
    its number of microseconds since the epoch (the resolution of
    [datetime.now]). *)
Inductive value : Type :=
| VNone
| VStr (s : string)
| VNum (z : Z)
| VDatetime (t : Z).

#[global] Instance value_eq_dec : EqDecision value.
Proof. solve_decision. Defined.

(** Python's [==] on two values. *)
Definition value_eqb (a b : value) : bool := bool_decide (a = b).

(** A Python [dict] with string keys. *)
Abbreviation dict := (gmap string value).

(** The exceptions the module raises or lets through. *)
Inductive exn : Type :=
| HTTPException (status_code : Z) (detail : string)
                (headers : option (list (string * string)))
| KeyError (key : string)
| JWTError (msg : string)
| ValueError (msg : string).

#[global] Instance exn_eq_dec : EqDecision exn.
Proof. solve_decision. Defined.

Definition HTTP_401_UNAUTHORIZED : Z := 401.
Definition HTTP_404_NOT_FOUND : Z := 404.

Definition Result (A : Type) : Type := (exn + A)%type.

(** [d[key]]: a missing key raises [KeyError]. *)
Definition subscript (d : dict) (key : string) : Result value :=
  match d !! key with
  | Some v => inr v
  | None => inl (KeyError key)
  end.

(** [timedelta(minutes=m)], in microseconds, for a whole number of minutes.
    The arithmetic is that of Python as long as the [datetime] it is added
    to stays representable; beyond that range the source raises
    [OverflowError], which this total function does not show, so a
    statement about an expiry assumes [in_datetime_range] where it needs
    it. *)
Definition timedelta_minutes (m : Z) : Z := m * 60000000.

(** [datetime.min] and [datetime.max], in microseconds since the epoch:
    0001-01-01 00:00:00 and 9999-12-31 23:59:59.999999. *)
Definition datetime_min : Z := -62135596800000000.
Definition datetime_max : Z := 253402300799999999.

(** The values a [datetime] can hold. *)
Definition in_datetime_range (t : Z) : Prop :=
  datetime_min <= t <= datetime_max.

(** ** The persistence layer and the clock *)

(** Modelled from the spec: [users.models.User] is not part of the source
    tree.  A user has a unique email, a unique username and a password
    digest; [user_id] is the primary key the session's identity map
    compares rows by. *)
Record User : Type := mkUser {
  user_id : Z;
  email : string;
  username : string;
  password : string
}.

(** Modelled from the spec: [users.models.Token] is not part of the source
    tree.  A refresh record holds the opaque token string, its expiry and
    the back-reference to the owning user.  The source stores the string
    under the keyword [token] (line 121) and looks it up through the
    attribute [refresh] (line 99); both are the record's one token
    string, [refresh_str]. *)
Record TokenDBModel : Type := mkTokenDBModel {
  refresh_str : string;
  rec_expired_at : Z;
  owner_id : Z
}.

#[global] Instance User_eq_dec : EqDecision User.
Proof. solve_decision. Defined.

#[global] Instance TokenDBModel_eq_dec : EqDecision TokenDBModel.
Proof. solve_decision. Defined.

(** What the session was asked to do, in the order it happened. *)
Inductive event : Type :=
| EvDelete (r : TokenDBModel)
| EvAppend (r : TokenDBModel)
| EvCommit.

Record World : Type := mkWorld {
  users : list User;
  tokens : list TokenDBModel;
  now : Z;
  log : list event
}.

Definition M (A : Type) : Type := World -> Result A * World.

#[global] Instance M_ret : MRet M := fun A (a : A) (w : World) => (inr a, w).

#[global] Instance M_bind : MBind M :=
  fun A B (f : A -> M B) (m : M A) (w : World) =>
    match m w with
    | (inr a, w') => f a w'
    | (inl e, w') => (inl e, w')
    end.

Definition raise {A : Type} (e : exn) : M A := fun w => (inl e, w).

Definition lift {A : Type} (r : Result A) : M A := fun w => (r, w).

(** [try: body / except catches: raise handler]. *)
Definition try_except {A : Type} (body : M A) (catches : exn -> bool)
    (handler : exn) : M A :=
  fun w =>
    match body w with
    | (inl e, w') => if catches e then (inl handler, w') else (inl e, w')
    | ok => ok
    end.

(** [datetime.now(UTC)]. *)
Definition datetime_now : M Z := fun w => (inr (now w), w).

(** ** Password *)

(** The [CryptContext] capability handed to [Password]. *)
Record CryptContext : Type := mkCryptContext {
  ctx_verify : string -> string -> Result bool
}.

Record Password : Type := mkPassword {
  pwd_context : CryptContext
}.

Module PasswordOps.

(** [Password.verify]. *)
Definition verify (self : Password) (password hash : string) : Result bool :=
  ctx_verify (pwd_context self) password hash.

End PasswordOps.

(** ** Token *)

(** [TokenCoder]: [encode(claims, secret, algorithm)],
    [decode(token, secret, algorithms)], which also sees the clock, and the
    exception class [error], given by the exceptions it matches. *)
Record TokenCoder : Type := mkTokenCoder {
  coder_encode : dict -> string -> string -> Result string;
  coder_decode : Z -> string -> string -> list string -> Result dict;
  coder_error : exn -> bool
}.

(** [app.settings.TokenSettings] is not part of the source tree; these are
    the fields the service reads, the lifetimes in whole minutes. *)
Record TokenSettings : Type := mkTokenSettings {
  DEFAULT_EXPIRED : Z;
  ACCESS_EXPIRED : Z;
  REFRESH_EXPIRED : Z;
  ALGORITHM : string
}.

Record Token : Type := mkToken {
  secret : string;
  config : TokenSettings;
  coder : TokenCoder
}.

(** [schemas.TokenModel] as the dictionary [create] returns. *)
Record TokenModel : Type := mkTokenModel {
  token : string;
  expired_at : Z;
  scope : string
}.

(** Truth value of an [Optional[float]] holding a number of minutes:
    [None] and [0] are falsy. *)
Definition truthy (x : option Z) : bool :=
  match x with
  | Some z => negb (Z.eqb z 0)
  | None => false
  end.

(** [x or y] with [y] a number. *)
Definition or_else (x : option Z) (y : Z) : option Z :=
  if truthy x then x else Some y.

Module TokenOps.

(** The expiry computed on line 46. *)
Definition expiry (self : Token) (now : Z) (expires_delta : option Z) : Z :=
  if truthy expires_delta
  then now + timedelta_minutes (default 0 expires_delta)
  else now + timedelta_minutes (DEFAULT_EXPIRED (config self)).

(** [to_encode_data] after the [update] on line 47, as a mapping from keys
    to values; the order in which a Python [dict] keeps its keys is not
    part of it. *)
Definition to_encode_data (data : dict) (scope : TokenScopes)
    (now expired : Z) : dict :=
  <["scope" := VStr (scope_value scope)]>
    (<["exp" := VDatetime expired]> (<["iat" := VDatetime now]> data)).

(** [Token.create]. *)
Definition create (self : Token) (data : dict) (scope : TokenScopes)
    (expires_delta : option Z) : M TokenModel :=
  now ← datetime_now;
  let expired := expiry self now expires_delta in
  token ← lift (coder_encode (coder self)
                  (to_encode_data data scope now expired)
                  (secret self) (ALGORITHM (config self)));
  mret {| token := token; expired_at := expired; scope := scope_value scope |}.

(** The body of the [try] in [Token.decode]. *)
Definition decode_body (self : Token) (token : string) (scope : TokenScopes)
    : M dict :=
  now ← datetime_now;
  payload ← lift (coder_decode (coder self) now token (secret self)
                    [ALGORITHM (config self)]);
  scope' ← lift (subscript payload "scope");
  if value_eqb scope' (VStr (scope_value scope)) then mret payload
  else raise (HTTPException HTTP_401_UNAUTHORIZED "Invalid scope for token" None).

(** [Token.decode]. *)
Definition decode (self : Token) (token : string) (scope : TokenScopes)
    : M dict :=
  try_except (decode_body self token scope) (coder_error (coder self))
    (HTTPException HTTP_401_UNAUTHORIZED "Could not validate credentials" None).

(** [Token.create_access]. *)
Definition create_access (self : Token) (data : dict)
    (expires_delta : option Z) : M TokenModel :=
  create self data ACCESS
    (or_else expires_delta (ACCESS_EXPIRED (config self))).

(** [Token.create_refresh]. *)
Definition create_refresh (self : Token) (data : dict)
    (expires_delta : option Z) : M TokenModel :=
  create self data REFRESH
    (or_else expires_delta (REFRESH_EXPIRED (config self))).

(** [Token.decode_access]. *)
Definition decode_access (self : Token) (token : string) : M dict :=
  decode self token ACCESS.

(** [Token.decode_refresh]. *)
Definition decode_refresh (self : Token) (token : string) : M dict :=
  decode self token REFRESH.

End TokenOps.

(** ** Auth *)

(** The two fields of [OAuth2PasswordRequestForm] the service reads. *)
Record OAuth2PasswordRequestForm : Type := mkForm {
  form_username : string;
  form_password : string
}.

(** [schemas.TokenPairModel] as the dictionary [__generate_tokens] returns:
    each token with its expiry, and the type. *)
Record TokenPairModel : Type := mkTokenPairModel {
  access : string * Z;
  refresh : string * Z;
  type : string
}.

Record Auth : Type := mkAuth {
  auth_password : Password;
  auth_token : Token
}.

(** *** The session *)

(** Removes the first row equal to [r]: the row the query returned. *)
Fixpoint delete_row (r : TokenDBModel) (l : list TokenDBModel)
    : list TokenDBModel :=
  match l with
  | [] => []
  | x :: l' => if bool_decide (x = r) then l' else x :: delete_row r l'
  end.

(** [db.delete(r)]. *)
Definition db_delete (r : TokenDBModel) : M unit := fun w =>
  (inr tt, {| users := users w; tokens := delete_row r (tokens w);
              now := now w; log := log w ++ [EvDelete r] |}).

(** [db.commit()]. *)
Definition db_commit : M unit := fun w =>
  (inr tt, {| users := users w; tokens := tokens w;
              now := now w; log := log w ++ [EvCommit] |}).

(** [user.tokens.append(r)]: the record becomes a row owned by [user]. *)
Definition tokens_append (user : User) (token : string) (expired_at : Z)
    : M unit := fun w =>
  let r := {| refresh_str := token; rec_expired_at := expired_at;
              owner_id := user_id user |} in
  (inr tt, {| users := users w; tokens := tokens w ++ [r];
              now := now w; log := log w ++ [EvAppend r] |}).

(** The row the query on lines 98-100 returns: the first record whose
    string is [refres_token_str], with its [user] relationship loaded
    eagerly. *)
Definition first_record (refres_token_str : string) (w : World)
    : option (TokenDBModel * option User) :=
  match find (fun r => String.eqb (refresh_str r) refres_token_str)
          (tokens w) with
  | Some r => Some (r, find (fun u => Z.eqb (user_id u) (owner_id r))
                            (users w))
  | None => None
  end.

Definition query_token_first (refres_token_str : string)
    : M (option (TokenDBModel * option User)) := fun w =>
  (inr (first_record refres_token_str w), w).

(** Whether a user row matches [email == key or username == key]; only a
    string can equal a stored email or username. *)
Definition user_matches (key : value) (u : User) : bool :=
  match key with
  | VStr s => String.eqb (email u) s || String.eqb (username u) s
  | _ => false
  end.

(** [a != b] on two rows of the user table: the identity map keeps one
    object per primary key. *)
Definition user_ne (a : option User) (b : User) : bool :=
  match a with
  | Some a' => negb (Z.eqb (user_id a') (user_id b))
  | None => true
  end.

Module AuthOps.

Definition not_found_error : exn :=
  HTTPException HTTP_404_NOT_FOUND "User not found" None.

Definition invalid_credential_error : exn :=
  HTTPException HTTP_401_UNAUTHORIZED "Invalid username or password" None.

Definition invalid_refresh_token_error : exn :=
  HTTPException HTTP_401_UNAUTHORIZED "Invalid refresh token" None.

Definition credentionals_exception : exn :=
  HTTPException HTTP_401_UNAUTHORIZED "Could not validate credentials"
    (Some [("WWW-Authenticate", "Bearer")]).

(** [Auth.validate]. *)
Definition validate (self : Auth) (user : option User)
    (credentials : OAuth2PasswordRequestForm) : Result bool :=
  match user with
  | None => inr false
  | Some u =>
      match PasswordOps.verify (auth_password self)
              (form_password credentials) (password u) with
      | inl e => inl e
      | inr ok => if negb ok then inr false else inr true
      end
  end.

(** [Auth.__get_user]. *)
Definition get_user (username : value) : M (option User) := fun w =>
  (inr (find (user_matches username) (users w)), w).

(** [Auth.__generate_tokens]. *)
Definition generate_tokens (self : Auth) (user : User) : M TokenPairModel :=
  access_token ← TokenOps.create_access (auth_token self)
                   {["email" := VStr (email user)]} None;
  refresh_token ← TokenOps.create_refresh (auth_token self)
                    {["email" := VStr (email user)]} None;
  _ ← tokens_append user (token refresh_token) (expired_at refresh_token);
  _ ← db_commit;
  mret {| access := (token access_token, expired_at access_token);
          refresh := (token refresh_token, expired_at refresh_token);
          type := "bearer" |}.

(** The test on line 105. *)
Definition refresh_rejected (user : option User)
    (refres_token : option (TokenDBModel * option User)) : bool :=
  match user, refres_token with
  | None, _ => true
  | Some _, None => true
  | Some u, Some (_, owner) => user_ne owner u
  end.

(** [Auth.refresh]. *)
Definition refresh (self : Auth) (refres_token_str : string)
    : M TokenPairModel :=
  payload ← TokenOps.decode_refresh (auth_token self) refres_token_str;
  refres_token ← query_token_first refres_token_str;
  key ← lift (subscript payload "email");
  user ← get_user key;
  _ ← match refres_token with
      | Some (r, _) => _ ← db_delete r; db_commit
      | None => mret tt
      end;
  if refresh_rejected user refres_token then raise credentionals_exception
  else match user with
       | Some u => generate_tokens self u
       | None => raise credentionals_exception (* excluded by the test *)
       end.

(** [Auth.authenticate]. *)
Definition authenticate (self : Auth)
    (credentials : OAuth2PasswordRequestForm) : M TokenPairModel :=
  user ← get_user (VStr (form_username credentials));
  ok ← lift (validate self user credentials);
  if negb ok then raise invalid_credential_error
  else match user with
       | Some u => generate_tokens self u
       | None => raise invalid_credential_error (* excluded by [validate] *)
       end.

(** [Auth.logout]. *)
Definition logout (self : Auth) (token_str : string) : M unit := mret tt.

(** [Auth.__call__]. *)
Definition call (self : Auth) (token : string) : M User :=
  pyload ← TokenOps.decode_access (auth_token self) token;
  key ← lift (subscript pyload "email");
  if value_eqb key VNone then raise credentionals_exception
  else
    user ← get_user key;
    match user with
    | None => raise not_found_error
    | Some u => mret u
    end.

End AuthOps.

(** ** Test doubles

    A deterministic codec and a password context to run the service on
    concrete inputs.  The codec writes the claims, the secret and the
    algorithm as one S-expression; like the JWT codec the service is
    deployed with, it rejects text it cannot parse, a wrong secret, an
    algorithm that is not allowed and a token whose [exp] lies in the past,
    each with a [JWTError]. *)

Module Doubles.

#[local] Instance Serialize_value : Serialize value :=
  fun v => match v with
           | VNone => Atom "none"
           | VStr s => [Atom "str"; to_sexp s]
           | VNum z => [Atom "num"; to_sexp z]
           | VDatetime t => [Atom "datetime"; to_sexp t]
           end%sexp.

#[local] Instance Deserialize_value : Deserialize value :=
  Deser.match_con "value" [("none", VNone)]
    [("str", Deser.con1_ VStr); ("num", Deser.con1_ VNum);
     ("datetime", Deser.con1_ VDatetime)].

Definition wire : Type := (string * string * list (string * value))%type.

Definition sexp_encode (claims : dict) (secret algorithm : string)
    : Result string :=
  inr (to_string ((secret, algorithm, map_to_list claims) : wire)).

Definition expired (payload : dict) (now : Z) : bool :=
  match payload !! "exp" with
  | Some (VDatetime t) => Z.ltb t now
  | _ => false
  end.

Definition sexp_decode (now : Z) (token secret : string)
    (algorithms : list string) : Result dict :=
  match (from_string token : error + wire) with
  | inl _ => inl (JWTError "Invalid token")
  | inr (sec, alg, claims) =>
      if negb (String.eqb sec secret)
      then inl (JWTError "Signature verification failed")
      else if negb (existsb (String.eqb alg) algorithms)
      then inl (JWTError "The specified alg value is not allowed")
      else if expired (list_to_map claims) now
      then inl (JWTError "Signature has expired")
      else inr (list_to_map claims)
  end.

(** [except JWTError]. *)
Definition is_JWTError (e : exn) : bool :=
  match e with
  | JWTError _ => true
  | _ => false
  end.

Definition sexp_coder : TokenCoder :=
  {| coder_encode := sexp_encode; coder_decode := sexp_decode;
     coder_error := is_JWTError |}.

(** A password context whose digests are the password behind a scheme
    prefix; like the deployed context, it refuses a digest whose scheme it
    cannot identify with a [ValueError]. *)
Definition plain_verify (password hash : string) : Result bool :=
  if String.prefix "$plain$" hash
  then inr (String.eqb hash ("$plain$" ++ password))
  else inl (ValueError "hash could not be identified").

Definition plain_context : CryptContext := {| ctx_verify := plain_verify |}.

Definition settings : TokenSettings :=
  {| DEFAULT_EXPIRED := 15; ACCESS_EXPIRED := 30; REFRESH_EXPIRED := 1440;
     ALGORITHM := "HS256" |}.

Definition issuer : Token :=
  {| secret := "s3cret"; config := settings; coder := sexp_coder |}.

Definition auth : Auth :=
  {| auth_password := {| pwd_context := plain_context |};
     auth_token := issuer |}.

Definition alice : User :=
  {| user_id := 1; email := "a@x.com"; username := "alice";
     password := "$plain$right" |}.

Definition world0 : World :=
  {| users := [alice]; tokens := []; now := 1700000000000000; log := [] |}.

(** The claims of a token issued to Alice at the time of [world0] with a
    lifetime of [ttl] minutes, and the token string the codec makes of a
    claims dictionary under the issuer's secret and algorithm. *)
Definition alice_claims (sc : TokenScopes) (ttl : Z) : dict :=
  TokenOps.to_encode_data {["email" := VStr "a@x.com"]} sc (now world0)
    (now world0 + timedelta_minutes ttl).

Definition sign (claims : dict) : string :=
  to_string ((secret issuer, ALGORITHM settings, map_to_list claims) : wire).

(** The refresh token Alice got at the time of [world0], and the world
    five seconds later, with the record of that token. *)
Definition refresh_tok : string := sign (alice_claims REFRESH 1440).

Definition world1 : World :=
  {| users := [alice];
     tokens := [{| refresh_str := refresh_tok;
                   rec_expired_at := now world0 + timedelta_minutes 1440;
                   owner_id := 1 |}];
     now := now world0 + 5000000;
     log := [] |}.

(** An access token with a valid signature whose claims have no subject. *)
Definition anonymous_tok : string :=
  sign (TokenOps.to_encode_data ∅ ACCESS (now world0)
          (now world0 + timedelta_minutes 30)).

(** An access token for a subject that is not in the user table. *)
Definition stranger_tok : string :=
  sign (TokenOps.to_encode_data {["email" := VStr "gone@x.com"]} ACCESS
          (now world0) (now world0 + timedelta_minutes 30)).

End Doubles.

(** ** What the specification calls the applicable default

    The lifetime used when the caller gives no usable [expires_delta]: the
    default of the scope, or [DEFAULT_EXPIRED] when that one is zero. *)

Definition applicable_default (cfg : TokenSettings) (scope_default : Z) : Z :=
  if Z.eqb scope_default 0 then DEFAULT_EXPIRED cfg else scope_default.

(** The default lifetime of a scope, and the issuing operation of a scope:
    [create_access] for access tokens, [create_refresh] for refresh
    tokens. *)
Definition scope_default (cfg : TokenSettings) (sc : TokenScopes) : Z :=
  match sc with
  | ACCESS => ACCESS_EXPIRED cfg
  | REFRESH => REFRESH_EXPIRED cfg
  end.

Definition create_scoped (self : Token) (sc : TokenScopes) (data : dict)
    (expires_delta : option Z) : M TokenModel :=
  match sc with
  | ACCESS => TokenOps.create_access self data expires_delta
  | REFRESH => TokenOps.create_refresh self data expires_delta
  end.

(** The outcome of issuing [data] for [scope] at time [now] with the expiry
    [expired]: the codec's exception, or the token it produced with that
    expiry and scope. *)
Definition issued (self : Token) (data : dict) (scope : TokenScopes)
    (now expired : Z) : Result TokenModel :=
  match coder_encode (coder self)
          (TokenOps.to_encode_data data scope now expired)
          (secret self) (ALGORITHM (config self)) with
  | inl e => inl e
  | inr t => inr {| token := t; expired_at := expired;
                    scope := scope_value scope |}
  end.

(** The world after the deletion and commit of lines 103-104. *)
Definition consumed (r : TokenDBModel) (w : World) : World :=
  {| users := users w; tokens := delete_row r (tokens w); now := now w;
     log := (log w ++ [EvDelete r]) ++ [EvCommit] |}.

(** The status code of an exception, when it is an HTTP error. *)
Definition status_of (e : exn) : option Z :=
  match e with
  | HTTPException c _ _ => Some c
  | _ => None
  end.

(** ** Further scenarios *)

Module Scenarios.

(** A token with a valid signature whose claims have no scope tag. *)
Definition unscoped_tok : string :=
  Doubles.sign {["email" := VStr "a@x.com"]}.

(** Bob's stored digest is not one the password context can identify. *)
Definition bob : User :=
  {| user_id := 2; email := "b@x.com"; username := "bob";
     password := "garbled" |}.

Definition world_bob : World :=
  {| users := [Doubles.alice; bob]; tokens := [];
     now := now Doubles.world0; log := [] |}.

Definition by_username : OAuth2PasswordRequestForm :=
  {| form_username := "alice"; form_password := "right" |}.

(** The record [__generate_tokens] stores for Alice at the time of
    [Doubles.world0]. *)
Definition alice_record : TokenDBModel :=
  {| refresh_str := Doubles.refresh_tok;
     rec_expired_at := now Doubles.world0 + timedelta_minutes 1440;
     owner_id := 1 |}.

(** Two days after [Doubles.world0]: Alice's refresh token has expired and
    its record is still in the table. *)
Definition world_late : World :=
  {| users := [Doubles.alice]; tokens := [alice_record];
     now := now Doubles.world0 + timedelta_minutes 2880; log := [] |}.

(** Alice's access token issued at the time of [Doubles.world0]. *)
Definition access_tok : string := Doubles.sign (Doubles.alice_claims ACCESS 30).

(** An issuer whose configured lifetimes are all 0. *)
Definition zero_issuer : Token :=
  {| secret := "s3cret";
     config := {| DEFAULT_EXPIRED := 0; ACCESS_EXPIRED := 0;
                  REFRESH_EXPIRED := 0; ALGORITHM := "HS256" |};
     coder := Doubles.sexp_coder |}.





(** A codec that signs with HS256 only, and a service configured with an
    algorithm it cannot sign with: it still reads tokens of that algorithm
    and raises on every attempt to make one. *)
Definition picky_encode (claims : dict) (secret algorithm : string)
    : Result string :=
  if String.eqb algorithm "HS256"
  then Doubles.sexp_encode claims secret algorithm
  else inl (JWTError "Algorithm not supported").

Definition picky_coder : TokenCoder :=
  {| coder_encode := picky_encode; coder_decode := Doubles.sexp_decode;
     coder_error := Doubles.is_JWTError |}.

Definition picky_auth : Auth :=
  {| auth_password := {| pwd_context := Doubles.plain_context |};
     auth_token :=
       {| secret := "s3cret";
          config := {| DEFAULT_EXPIRED := 15; ACCESS_EXPIRED := 30;
                       REFRESH_EXPIRED := 1440; ALGORITHM := "ES999" |};
          coder := picky_coder |} |}.

(** A refresh token of that algorithm for Alice, and a world holding its
    record. *)
Definition legacy_tok : string :=
  match Doubles.sexp_encode (Doubles.alice_claims REFRESH 1440)
          "s3cret" "ES999" with
  | inr t => t
  | inl _ => ""
  end.

Definition legacy_record : TokenDBModel :=
  {| refresh_str := legacy_tok;
     rec_expired_at := now Doubles.world0 + timedelta_minutes 1440;
     owner_id := 1 |}.

Definition world_legacy : World :=
  {| users := [Doubles.alice]; tokens := [legacy_record];
     now := now Doubles.world0; log := [] |}.

End Scenarios.

(** ** Proof tools *)

Ltac run_M :=
  unfold mbind, M_bind, mret, M_ret, lift, raise, datetime_now,
    try_except in *.

(** ** The token issuer *)

Section TokenIssuer.

Variable self : Token.

Lemma create_eq (data : dict) (sc : TokenScopes) (delta : option Z)
    (w : World) :
  TokenOps.create self data sc delta w
  = (issued self data sc (now w) (TokenOps.expiry self (now w) delta), w).
Proof.
  unfold TokenOps.create, issued. run_M.
  destruct (coder_encode _ _ _ _); reflexivity.
Qed.

Lemma expiry_falsy (t : Z) (delta : option Z) (scope_default : Z) :
  truthy delta = false ->
  TokenOps.expiry self t (or_else delta scope_default)
  = t + timedelta_minutes (applicable_default (config self) scope_default).
Proof.
  intros Hf. unfold or_else, TokenOps.expiry, applicable_default.
  rewrite Hf. simpl.
  destruct (Z.eqb scope_default 0); reflexivity.
Qed.

Lemma to_encode_data_scope (data : dict) (sc : TokenScopes) (t e : Z) :
  TokenOps.to_encode_data data sc t e !! "scope" = Some (VStr (scope_value sc)).
Proof. unfold TokenOps.to_encode_data. apply lookup_insert_eq. Qed.

Lemma to_encode_data_exp (data : dict) (sc : TokenScopes) (t e : Z) :
  TokenOps.to_encode_data data sc t e !! "exp" = Some (VDatetime e).
Proof.
  unfold TokenOps.to_encode_data.
  rewrite lookup_insert_ne by discriminate. apply lookup_insert_eq.
Qed.

Lemma to_encode_data_other (data : dict) (sc : TokenScopes) (t e : Z)
    (k : string) :
  k <> "scope" -> k <> "exp" -> k <> "iat" ->
  TokenOps.to_encode_data data sc t e !! k = data !! k.
Proof.
  intros H1 H2 H3. unfold TokenOps.to_encode_data.
  rewrite !lookup_insert_ne by congruence. reflexivity.
Qed.

Lemma scope_value_inj (a b : TokenScopes) :
  scope_value a = scope_value b -> a = b.
Proof. destruct a, b; simpl; congruence. Qed.

(** What [decode] does once the codec has accepted the token. *)
Lemma decode_accepted (tok : string) (sc : TokenScopes) (w : World)
    (payload : dict) (v : value) :
  coder_decode (coder self) (now w) tok (secret self)
    [ALGORITHM (config self)] = inr payload ->
  payload !! "scope" = Some v ->
  TokenOps.decode self tok sc w
  = if value_eqb v (VStr (scope_value sc)) then (inr payload, w)
    else if coder_error (coder self)
              (HTTPException HTTP_401_UNAUTHORIZED "Invalid scope for token" None)
    then (inl (HTTPException HTTP_401_UNAUTHORIZED
                 "Could not validate credentials" None), w)
    else (inl (HTTPException HTTP_401_UNAUTHORIZED
                 "Invalid scope for token" None), w).
Proof.
  intros Hd Hs. unfold TokenOps.decode, TokenOps.decode_body, subscript.
  run_M. rewrite Hd, Hs.
  destruct (value_eqb v _); [reflexivity|].
  destruct (coder_error _ _); reflexivity.
Qed.

(** What [decode] does when the codec raises. *)
Lemma decode_refused (tok : string) (sc : TokenScopes) (w : World) (e : exn) :
  coder_decode (coder self) (now w) tok (secret self)
    [ALGORITHM (config self)] = inl e ->
  TokenOps.decode self tok sc w
  = if coder_error (coder self) e
    then (inl (HTTPException HTTP_401_UNAUTHORIZED
                 "Could not validate credentials" None), w)
    else (inl e, w).
Proof.
  intros Hd. unfold TokenOps.decode, TokenOps.decode_body. run_M.
  rewrite Hd. destruct (coder_error _ e); reflexivity.
Qed.

(** [decode] never changes the world, so its outcome in [w] is always
    paired with [w] itself. *)
Lemma decode_world (tok : string) (sc : TokenScopes) (w w' : World)
    (r : Result dict) :
  TokenOps.decode self tok sc w = (r, w') -> w' = w.
Proof.
  unfold TokenOps.decode, TokenOps.decode_body, subscript. run_M.
  destruct (coder_decode _ _ _ _ _) as [e|p].
  - destruct (coder_error _ e); congruence.
  - destruct (p !! "scope") as [v|].
    + destruct (value_eqb v _); [congruence|].
      destruct (coder_error _ _); congruence.
    + destruct (coder_error _ _); congruence.
Qed.

End TokenIssuer.

(** ** Properties of the token issuer *)

(** C10, as the specification has it, fails: with every configured
    lifetime 0, an override of 0 is replaced by 0 and the token issued
    expires at the very time of issue. *)
Lemma zero_defaults_expire_immediately :
  exists tm,
    TokenOps.create_access Scenarios.zero_issuer
      {["email" := VStr "a@x.com"]} (Some 0) Doubles.world0
    = (inr tm, Doubles.world0)
    /\ expired_at tm = now Doubles.world0.
Proof. eexists. split; reflexivity. Qed.

(** C10 (amended). With an [expires_delta] of 0 or [None], [create_access]
    and [create_refresh] ignore the override: as long as the result is a
    representable [datetime], the token is issued with the expiry [now]
    plus the applicable default in minutes, which is the default of the
    scope ([ACCESS_EXPIRED], [REFRESH_EXPIRED]) or, when that is 0,
    [DEFAULT_EXPIRED]; that expiry is later than the time of issue exactly
    when the applicable default is positive, and is the time of issue
    itself when it is 0. *)
Theorem falsy_delta_replaced_by_default (self : Token) (data : dict)
    (sc : TokenScopes) (delta : option Z) (w : World) :
  let ttl := applicable_default (config self)
               (scope_default (config self) sc) in
  truthy delta = false ->
  in_datetime_range (now w) ->
  in_datetime_range (now w + ttl * 60000000) ->
  create_scoped self sc data delta w
  = (issued self data sc (now w) (now w + ttl * 60000000), w)
  /\ (forall tm,
        issued self data sc (now w) (now w + ttl * 60000000) = inr tm ->
        expired_at tm = now w + ttl * 60000000
        /\ scope tm = scope_value sc
        /\ (0 < ttl <-> now w < expired_at tm)
        /\ (ttl = 0 -> expired_at tm = now w)).
Proof.
  intros ttl Hf _ _. split.
  - unfold create_scoped, TokenOps.create_access, TokenOps.create_refresh.
    destruct sc; rewrite create_eq, expiry_falsy by exact Hf;
      reflexivity.
  - intros tm. unfold issued.
    destruct (coder_encode _ _ _ _) as [e|t]; [discriminate|].
    intros [= <-]. simpl. repeat split; lia.
Qed.

Lemma falsy_delta_replaced_by_default_witness :
  TokenOps.create_access Doubles.issuer
    {["email" := VStr "a@x.com"]} (Some 0) Doubles.world0
  = (inr {| token := Doubles.sign (Doubles.alice_claims ACCESS 30);
            expired_at := 1700001800000000;
            scope := "access_token" |}, Doubles.world0).
Proof.
  destruct (falsy_delta_replaced_by_default Doubles.issuer
              {["email" := VStr "a@x.com"]} ACCESS (Some 0) Doubles.world0)
    as [Ha _].
  - reflexivity.
  - vm_compute. split; discriminate.
  - vm_compute. split; discriminate.
  - simpl in Ha. rewrite Ha. reflexivity.
Defined.



(** C4. A token issued by [create] carries the tag of the scope it was
    issued for, one of the two scope strings, in its claims and in the
    returned model; and whenever the codec accepts that token (signature
    valid, not expired) and hands back its scope tag, verifying it against
    the other scope fails with an HTTP 401 error. *)
Theorem scope_separation (self : Token) (data : dict) (sc sc' : TokenScopes)
    (delta : option Z) (w w1 w2 : World) (tm : TokenModel) (payload : dict) :
  let claims :=
    TokenOps.to_encode_data data sc (now w)
      (TokenOps.expiry self (now w) delta) in
  TokenOps.create self data sc delta w = (inr tm, w1) ->
  sc' <> sc ->
  coder_decode (coder self) (now w2) (token tm) (secret self)
    [ALGORITHM (config self)] = inr payload ->
  payload !! "scope" = claims !! "scope" ->
  coder_encode (coder self) claims (secret self) (ALGORITHM (config self))
    = inr (token tm)
  /\ claims !! "scope" = Some (VStr (scope tm))
  /\ (scope tm = "access_token" \/ scope tm = "refresh_token")
  /\ scope tm = scope_value sc
  /\ exists detail headers,
       TokenOps.decode self (token tm) sc' w2
       = (inl (HTTPException HTTP_401_UNAUTHORIZED detail headers), w2).
Proof.
  intros claims Hc Hne Hdec Hsc.
  rewrite create_eq in Hc. unfold issued in Hc. fold claims in Hc.
  destruct (coder_encode _ _ _ _) as [e|t] eqn:Henc; [discriminate|].
  injection Hc as <- _. simpl in *.
  unfold claims in Hsc. rewrite to_encode_data_scope in Hsc.
  split; [reflexivity|].
  split; [apply to_encode_data_scope|].
  split; [destruct sc; auto|].
  split; [reflexivity|].
  rewrite (decode_accepted self t sc' w2 payload (VStr (scope_value sc))
             Hdec Hsc).
  unfold value_eqb. rewrite bool_decide_eq_false_2.
  - destruct (coder_error _ _); eauto.
  - intros H. injection H as H. apply scope_value_inj in H. congruence.
Qed.

Lemma scope_separation_witness :
  exists detail headers,
    TokenOps.decode Doubles.issuer Doubles.refresh_tok ACCESS Doubles.world0
    = (inl (HTTPException HTTP_401_UNAUTHORIZED detail headers),
       Doubles.world0).
Proof.
  refine (proj2 (proj2 (proj2 (proj2
    (scope_separation Doubles.issuer {["email" := VStr "a@x.com"]}
       REFRESH ACCESS (Some 1440) Doubles.world0 Doubles.world0
       Doubles.world0
       {| token := Doubles.refresh_tok;
          expired_at := now Doubles.world0 + timedelta_minutes 1440;
          scope := "refresh_token" |}
       (Doubles.alice_claims REFRESH 1440) _ _ _ _))))).
  - reflexivity.
  - discriminate.
  - vm_compute. reflexivity.
  - reflexivity.
Defined.

(** C2, as the specification has it, fails: a token the codec refuses and a
    token of the wrong scope are both answered with status 401, but with
    different details. *)
Lemma decode_failure_causes_differ :
  TokenOps.decode Doubles.issuer "not a token" ACCESS Doubles.world0
  = (inl (HTTPException 401 "Could not validate credentials" None),
     Doubles.world0)
  /\ TokenOps.decode Doubles.issuer
       Doubles.refresh_tok ACCESS Doubles.world0
  = (inl (HTTPException 401 "Invalid scope for token" None), Doubles.world0)
  /\ HTTPException 401 "Could not validate credentials" None
     <> HTTPException 401 "Invalid scope for token" None.
Proof.
  split; [vm_compute; reflexivity|].
  split; [vm_compute; reflexivity|discriminate].
Qed.

(** C2 (amended). With a codec whose exception class does not cover HTTP
    errors, as [JWTError] does not, every failure of [decode] caused by the
    codec's exception or by a scope mismatch is an HTTP 401 error without
    headers; the detail is "Could not validate credentials" for every
    exception of the codec's class, whatever its cause, and "Invalid scope
    for token" for a scope mismatch. *)
Theorem decode_failures_are_401 (self : Token) (tok : string)
    (sc : TokenScopes) (w : World) :
  coder_error (coder self)
    (HTTPException HTTP_401_UNAUTHORIZED "Invalid scope for token" None)
    = false ->
  (forall e,
      coder_decode (coder self) (now w) tok (secret self)
        [ALGORITHM (config self)] = inl e ->
      coder_error (coder self) e = true ->
      TokenOps.decode self tok sc w
      = (inl (HTTPException HTTP_401_UNAUTHORIZED
                "Could not validate credentials" None), w))
  /\ (forall payload v,
      coder_decode (coder self) (now w) tok (secret self)
        [ALGORITHM (config self)] = inr payload ->
      payload !! "scope" = Some v ->
      v <> VStr (scope_value sc) ->
      TokenOps.decode self tok sc w
      = (inl (HTTPException HTTP_401_UNAUTHORIZED
                "Invalid scope for token" None), w)).
Proof.
  intros Hhttp. split.
  - intros e Hd He. rewrite (decode_refused self tok sc w e Hd), He.
    reflexivity.
  - intros payload v Hd Hs Hv.
    rewrite (decode_accepted self tok sc w payload v Hd Hs), Hhttp.
    unfold value_eqb. rewrite bool_decide_eq_false_2 by exact Hv.
    reflexivity.
Qed.

Lemma decode_failures_are_401_witness :
  TokenOps.decode Doubles.issuer "not a token" ACCESS Doubles.world0
  = (inl (HTTPException HTTP_401_UNAUTHORIZED
            "Could not validate credentials" None), Doubles.world0)
  /\ TokenOps.decode Doubles.issuer
       Doubles.refresh_tok ACCESS Doubles.world0
  = (inl (HTTPException HTTP_401_UNAUTHORIZED
            "Invalid scope for token" None), Doubles.world0).
Proof.
  split.
  - apply (proj1 (decode_failures_are_401 Doubles.issuer "not a token"
                    ACCESS Doubles.world0 eq_refl)
             (JWTError "Invalid token")).
    + vm_compute. reflexivity.
    + reflexivity.
  - apply (proj2 (decode_failures_are_401 Doubles.issuer
                    Doubles.refresh_tok
                    ACCESS Doubles.world0 eq_refl)
             (Doubles.alice_claims REFRESH 1440) (VStr "refresh_token")).
    + vm_compute. reflexivity.
    + reflexivity.
    + discriminate.
Defined.

(** ** Properties of the password check *)

(** C7, as the specification has it, fails: [verify] hands the digest to
    the context and lets its exception through, so a digest the context
    cannot identify makes [verify] raise instead of returning [False]. *)
Lemma verify_raises_on_malformed_digest :
  PasswordOps.verify {| pwd_context := Doubles.plain_context |}
    "right" "not-a-digest"
  = inl (ValueError "hash could not be identified")
  /\ ~ exists b : bool,
       PasswordOps.verify {| pwd_context := Doubles.plain_context |}
         "right" "not-a-digest" = inr b.
Proof.
  split; [reflexivity|]. intros [b Hb]. discriminate Hb.
Qed.

(** C7 (amended). [verify] returns a boolean exactly when the context's
    [verify] returns it, and raises exactly what the context raises. *)
Theorem verify_delegates (self : Password) (plaintext digest : string) :
  (forall b : bool,
      PasswordOps.verify self plaintext digest = inr b
      <-> ctx_verify (pwd_context self) plaintext digest = inr b)
  /\ (forall e : exn,
      PasswordOps.verify self plaintext digest = inl e
      <-> ctx_verify (pwd_context self) plaintext digest = inl e).
Proof. unfold PasswordOps.verify. split; intros; reflexivity. Qed.

(** ** Properties of the service *)

Section Service.

Variable self : Auth.

(** [__generate_tokens] either raises what the codec raised and leaves the
    world alone, or appends one record holding the new refresh token for
    the user and commits. *)
Lemma generate_tokens_effect (u : User) (w w' : World)
    (res : Result TokenPairModel) :
  AuthOps.generate_tokens self u w = (res, w') ->
  match res with
  | inl _ => w' = w
  | inr tp =>
      let r' := {| refresh_str := fst (refresh tp);
                   rec_expired_at := snd (refresh tp);
                   owner_id := user_id u |} in
      type tp = "bearer"
      /\ w' = {| users := users w; tokens := tokens w ++ [r'];
                 now := now w;
                 log := (log w ++ [EvAppend r']) ++ [EvCommit] |}
  end.
Proof.
  unfold AuthOps.generate_tokens, TokenOps.create_access,
    TokenOps.create_refresh.
  unfold mbind at 1, M_bind at 1. rewrite create_eq.
  destruct (issued _ _ ACCESS _ _) as [e|a]; [intros [= <- <-]; reflexivity|].
  unfold mbind at 1, M_bind at 1. rewrite create_eq.
  destruct (issued _ _ REFRESH _ _) as [e|t]; [intros [= <- <-]; reflexivity|].
  unfold tokens_append, db_commit. run_M. simpl.
  intros [= <- <-]. simpl. split; reflexivity.
Qed.

(** [refresh] once the token has decoded and carries a subject: the record
    found, if any, is deleted and the deletion committed; then the checks
    decide. *)
Lemma refresh_after_decode (tok : string) (w : World) (payload : dict)
    (key : value) :
  TokenOps.decode_refresh (auth_token self) tok w = (inr payload, w) ->
  payload !! "email" = Some key ->
  let user := find (user_matches key) (users w) in
  let w1 := match first_record tok w with
            | Some (r, _) => consumed r w
            | None => w
            end in
  AuthOps.refresh self tok w
  = if AuthOps.refresh_rejected user (first_record tok w)
    then (inl AuthOps.credentionals_exception, w1)
    else match user with
         | Some u => AuthOps.generate_tokens self u w1
         | None => (inl AuthOps.credentionals_exception, w1)
         end.
Proof.
  intros Hd He user w1. unfold AuthOps.refresh.
  unfold mbind at 1, M_bind at 1. rewrite Hd.
  unfold query_token_first, AuthOps.get_user, subscript, db_delete,
    db_commit. run_M. rewrite He. simpl. fold user. subst w1.
  destruct (first_record tok w) as [[r owner]|]; simpl;
    destruct (AuthOps.refresh_rejected user _); try reflexivity;
    destruct user; reflexivity.
Qed.

(** [refresh] when the decoded claims have no subject: line 101 raises
    before anything is deleted, checked or issued. *)
Lemma refresh_without_subject (tok : string) (w : World) (payload : dict) :
  TokenOps.decode_refresh (auth_token self) tok w = (inr payload, w) ->
  payload !! "email" = None ->
  AuthOps.refresh self tok w = (inl (KeyError "email"), w).
Proof.
  intros Hd He. unfold AuthOps.refresh.
  unfold mbind at 1, M_bind at 1. rewrite Hd.
  unfold query_token_first, subscript. run_M. rewrite He. reflexivity.
Qed.

(** [__call__] once the token has decoded. *)
Lemma call_after_decode (tok : string) (w : World) (payload : dict) :
  TokenOps.decode_access (auth_token self) tok w = (inr payload, w) ->
  AuthOps.call self tok w
  = match payload !! "email" with
    | None => (inl (KeyError "email"), w)
    | Some key =>
        if value_eqb key VNone then (inl AuthOps.credentionals_exception, w)
        else match find (user_matches key) (users w) with
             | None => (inl AuthOps.not_found_error, w)
             | Some u => (inr u, w)
             end
    end.
Proof.
  intros Hd. unfold AuthOps.call.
  unfold mbind at 1, M_bind at 1. rewrite Hd.
  unfold subscript, AuthOps.get_user. run_M.
  destruct (payload !! "email") as [key|]; [|reflexivity].
  destruct (value_eqb key VNone); [reflexivity|].
  destruct (find _ _); reflexivity.
Qed.

(** A token that fails verification is answered with the error of the
    verification; no user is looked up. *)
Lemma call_decode_failure (tok : string) (w w' : World) (e : exn) :
  TokenOps.decode_access (auth_token self) tok w = (inl e, w') ->
  AuthOps.call self tok w = (inl e, w').
Proof.
  intros Hd. unfold AuthOps.call.
  unfold mbind at 1, M_bind at 1. rewrite Hd. reflexivity.
Qed.

End Service.

(** C5. [authenticate] raises the one [invalid_credential_error], and
    leaves the world as it was, both when no user matches the name given
    and when a user matches and the password check answers [False]. *)
Theorem authenticate_invalid_credentials (self : Auth)
    (credentials : OAuth2PasswordRequestForm) (w : World) :
  let user := find (user_matches (VStr (form_username credentials))) (users w) in
  user = None
  \/ (exists u, user = Some u
       /\ PasswordOps.verify (auth_password self)
            (form_password credentials) (password u) = inr false) ->
  AuthOps.authenticate self credentials w
  = (inl AuthOps.invalid_credential_error, w).
Proof.
  intros user H. unfold AuthOps.authenticate, AuthOps.get_user,
    AuthOps.validate. run_M. fold user.
  destruct H as [-> | (u & -> & Hv)]; [reflexivity|].
  rewrite Hv. reflexivity.
Qed.

Lemma authenticate_invalid_credentials_witness :
  AuthOps.authenticate Doubles.auth
    {| form_username := "nobody"; form_password := "right" |} Doubles.world0
  = (inl (HTTPException 401 "Invalid username or password" None),
     Doubles.world0)
  /\ AuthOps.authenticate Doubles.auth
       {| form_username := "a@x.com"; form_password := "wrong" |}
       Doubles.world0
  = (inl (HTTPException 401 "Invalid username or password" None),
     Doubles.world0).
Proof.
  split.
  - apply (authenticate_invalid_credentials Doubles.auth
             {| form_username := "nobody"; form_password := "right" |}
             Doubles.world0).
    left. reflexivity.
  - apply (authenticate_invalid_credentials Doubles.auth
             {| form_username := "a@x.com"; form_password := "wrong" |}
             Doubles.world0).
    right. exists Doubles.alice. split; reflexivity.
Defined.

(** C6. When the access token passes verification and carries a subject
    that is not [None], and no user matches that subject, [__call__] raises
    [not_found_error], a 404 that differs from the 401 errors; and a token
    that fails verification is answered with the error of the verification,
    so the 404 is only reached once the token has been accepted. *)
Theorem call_user_not_found (self : Auth) (tok : string) (w : World)
    (payload : dict) (key : value) :
  TokenOps.decode_access (auth_token self) tok w = (inr payload, w) ->
  payload !! "email" = Some key ->
  key <> VNone ->
  find (user_matches key) (users w) = None ->
  AuthOps.call self tok w = (inl AuthOps.not_found_error, w)
  /\ status_of AuthOps.not_found_error = Some HTTP_404_NOT_FOUND
  /\ AuthOps.not_found_error <> AuthOps.credentionals_exception
  /\ status_of AuthOps.not_found_error <> Some HTTP_401_UNAUTHORIZED
  /\ (forall tok' w0 w0' e,
        TokenOps.decode_access (auth_token self) tok' w0 = (inl e, w0') ->
        AuthOps.call self tok' w0 = (inl e, w0')).
Proof.
  intros Hd He Hk Hf.
  rewrite (call_after_decode self tok w payload Hd), He, Hf.
  unfold value_eqb. rewrite bool_decide_eq_false_2 by exact Hk.
  split; [reflexivity|]. split; [reflexivity|].
  split; [discriminate|]. split; [discriminate|].
  intros tok' w0 w0' e. apply call_decode_failure.
Qed.

Lemma call_user_not_found_witness :
  AuthOps.call Doubles.auth Doubles.stranger_tok Doubles.world0
  = (inl (HTTPException 404 "User not found" None), Doubles.world0).
Proof.
  refine (proj1 (call_user_not_found Doubles.auth Doubles.stranger_tok
                   Doubles.world0
                   (TokenOps.to_encode_data {["email" := VStr "gone@x.com"]}
                      ACCESS (now Doubles.world0)
                      (now Doubles.world0 + timedelta_minutes 30))
                   (VStr "gone@x.com") _ _ _ _)).
  - vm_compute. reflexivity.
  - reflexivity.
  - discriminate.
  - reflexivity.
Defined.

(** The order [refresh] keeps whenever the decoded claims carry a subject:
    the record found is deleted, and the deletion committed, before
    anything else happens to the session; a call that is then rejected by
    the final checks leaves the table without the record, and a call that
    succeeds appends the new record only after the deletion.  Claims
    without a subject stop the call on line 101 with the record still in
    place. *)
Lemma refresh_deletes_record_first (self : Auth) (tok : string) (w : World)
    (payload : dict) (r : TokenDBModel) (owner : option User) :
  TokenOps.decode_refresh (auth_token self) tok w = (inr payload, w) ->
  first_record tok w = Some (r, owner) ->
  exists res w',
    AuthOps.refresh self tok w = (res, w')
    /\ match payload !! "email" with
       | None => res = inl (KeyError "email") /\ w' = w
       | Some key =>
           (AuthOps.refresh_rejected (find (user_matches key) (users w))
              (Some (r, owner)) = true ->
            res = inl AuthOps.credentionals_exception)
           /\ match res with
              | inl _ =>
                  tokens w' = delete_row r (tokens w)
                  /\ log w' = (log w ++ [EvDelete r; EvCommit])%list
              | inr tp =>
                  exists r',
                    refresh_str r' = fst (refresh tp)
                    /\ tokens w' = (delete_row r (tokens w) ++ [r'])%list
                    /\ log w' = (log w ++ [EvDelete r; EvCommit;
                                           EvAppend r'; EvCommit])%list
              end
       end.
Proof.
  intros Hd Hr.
  destruct (payload !! "email") as [key|] eqn:He.
  - pose proof (refresh_after_decode self tok w payload key Hd He) as H.
    simpl in H. rewrite Hr in H.
    destruct (AuthOps.refresh_rejected _ _) eqn:Hrej.
    + eexists _, _. split; [exact H|]. simpl.
      rewrite <- !app_assoc. auto.
    + destruct (find (user_matches key) (users w)) as [u|]; [|discriminate].
      destruct (AuthOps.generate_tokens self u (consumed r w))
        as [res w'] eqn:Hg.
      exists res, w'. split; [exact H|].
      split; [discriminate|].
      apply generate_tokens_effect in Hg.
      destruct res as [e|tp].
      * subst w'. simpl. rewrite <- !app_assoc. auto.
      * destruct Hg as [_ ->]. simpl.
        exists {| refresh_str := fst (refresh tp);
                  rec_expired_at := snd (refresh tp);
                  owner_id := user_id u |}.
        split; [reflexivity|]. rewrite <- !app_assoc. auto.
  - exists (inl (KeyError "email")), w.
    split; [apply (refresh_without_subject self tok w payload Hd He)|auto].
Qed.

Lemma refresh_deletes_record_first_witness :
  exists tp w',
    AuthOps.refresh Doubles.auth Doubles.refresh_tok Doubles.world1
    = (inr tp, w')
    /\ exists r',
         tokens w' = [r']
         /\ log w' = [EvDelete {| refresh_str := Doubles.refresh_tok;
                                  rec_expired_at :=
                                    now Doubles.world0 + timedelta_minutes 1440;
                                  owner_id := 1 |};
                      EvCommit; EvAppend r'; EvCommit].
Proof.
  destruct (refresh_deletes_record_first Doubles.auth Doubles.refresh_tok
              Doubles.world1 (Doubles.alice_claims REFRESH 1440)
              {| refresh_str := Doubles.refresh_tok;
                 rec_expired_at := now Doubles.world0 + timedelta_minutes 1440;
                 owner_id := 1 |}
              (Some Doubles.alice))
    as (res & w' & Hrun & Hpost).
  - vm_compute. reflexivity.
  - vm_compute. reflexivity.
  - change (Doubles.alice_claims REFRESH 1440 !! "email")
      with (Some (VStr "a@x.com")) in Hpost.
    destruct Hpost as [_ Hpost].
    destruct res as [e|tp].
    + exfalso. vm_compute in Hrun. discriminate Hrun.
    + exists tp, w'. split; [exact Hrun|].
      destruct Hpost as (r' & _ & Ht & Hl). exists r'.
      split; [rewrite Ht; vm_compute; reflexivity|exact Hl].
Defined.


(** Whatever makes the final checks of [refresh] fail, the exception is the
    generic [credentionals_exception]; [invalid_refresh_token_error] is
    never raised. *)
Lemma refresh_rejected_raises (self : Auth) (tok : string) (w : World)
    (payload : dict) (key : value) :
  TokenOps.decode_refresh (auth_token self) tok w = (inr payload, w) ->
  payload !! "email" = Some key ->
  AuthOps.refresh_rejected (find (user_matches key) (users w))
    (first_record tok w) = true ->
  fst (AuthOps.refresh self tok w) = inl AuthOps.credentionals_exception.
Proof.
  intros Hd He Hrej.
  pose proof (refresh_after_decode self tok w payload key Hd He) as H.
  simpl in H. rewrite Hrej in H. rewrite H. reflexivity.
Qed.

(** C1. The code departs from the claim: a refresh token is redeemed once,
    and presenting it again, when its record is gone, raises
    [credentionals_exception], "Could not validate credentials", not
    [invalid_refresh_token_error], "Invalid refresh token". *)
Theorem refresh_replay_raises_generic_error :
  exists tp w1,
    AuthOps.refresh Doubles.auth Doubles.refresh_tok Doubles.world1
    = (inr tp, w1)
    /\ first_record Doubles.refresh_tok w1 = None
    /\ AuthOps.refresh Doubles.auth Doubles.refresh_tok w1
       = (inl (HTTPException 401 "Could not validate credentials"
                 (Some [("WWW-Authenticate", "Bearer")])), w1)
    /\ AuthOps.credentionals_exception
       <> AuthOps.invalid_refresh_token_error.
Proof.
  eexists _, _. split; [vm_compute; reflexivity|].
  split; [vm_compute; reflexivity|].
  split; [vm_compute; reflexivity|discriminate].
Qed.

(** The half of C8 the code does: a subject that is [None] is answered
    with [credentionals_exception]. *)
Lemma call_null_subject (self : Auth) (tok : string) (w : World)
    (payload : dict) :
  TokenOps.decode_access (auth_token self) tok w = (inr payload, w) ->
  payload !! "email" = Some VNone ->
  AuthOps.call self tok w = (inl AuthOps.credentionals_exception, w).
Proof.
  intros Hd He. rewrite (call_after_decode self tok w payload Hd), He.
  reflexivity.
Qed.

(** The half it misses: without the key, the subscript on line 138
    raises. *)
Lemma call_missing_subject (self : Auth) (tok : string) (w : World)
    (payload : dict) :
  TokenOps.decode_access (auth_token self) tok w = (inr payload, w) ->
  payload !! "email" = None ->
  AuthOps.call self tok w = (inl (KeyError "email"), w).
Proof.
  intros Hd He. rewrite (call_after_decode self tok w payload Hd), He.
  reflexivity.
Qed.

(** C8. The code departs from the claim: an access token that passes
    verification and whose claims have no subject makes [__call__] raise
    [KeyError], which is no HTTP error at all. *)
Theorem call_missing_subject_raises_KeyError :
  TokenOps.decode_access Doubles.issuer Doubles.anonymous_tok Doubles.world0
  = (inr (TokenOps.to_encode_data ∅ ACCESS (now Doubles.world0)
            (now Doubles.world0 + timedelta_minutes 30)), Doubles.world0)
  /\ AuthOps.call Doubles.auth Doubles.anonymous_tok Doubles.world0
     = (inl (KeyError "email"), Doubles.world0)
  /\ status_of (KeyError "email") = None.
Proof.
  split; [vm_compute; reflexivity|].
  split; [vm_compute; reflexivity|reflexivity].
Qed.

(** ** Further properties of the token issuer *)

(** X3. Whatever [decode] returns is what the codec returned for that
    token, unchanged, and carries the scope asked for; the world is left as
    it was. *)
Theorem decode_sound (self : Token) (tok : string) (sc : TokenScopes)
    (w w' : World) (payload : dict) :
  TokenOps.decode self tok sc w = (inr payload, w') ->
  w' = w
  /\ coder_decode (coder self) (now w) tok (secret self)
       [ALGORITHM (config self)] = inr payload
  /\ payload !! "scope" = Some (VStr (scope_value sc)).
Proof.
  unfold TokenOps.decode, TokenOps.decode_body, subscript. run_M.
  destruct (coder_decode _ _ _ _ _) as [e|p].
  - destruct (coder_error _ e); discriminate.
  - destruct (p !! "scope") as [v|] eqn:Hs.
    + unfold value_eqb. destruct (bool_decide_reflect (v = VStr (scope_value sc)))
        as [->|Hne].
      * intros [= <- <-]. auto.
      * destruct (coder_error _ _); discriminate.
    + destruct (coder_error _ _); discriminate.
Qed.

Lemma decode_sound_witness :
  coder_decode Doubles.sexp_coder (now Doubles.world0) Scenarios.access_tok
    "s3cret" ["HS256"] = inr (Doubles.alice_claims ACCESS 30)
  /\ Doubles.alice_claims ACCESS 30 !! "scope" = Some (VStr "access_token").
Proof.
  refine (proj2 (decode_sound Doubles.issuer Scenarios.access_tok ACCESS
                   Doubles.world0 Doubles.world0
                   (Doubles.alice_claims ACCESS 30) _)).
  vm_compute. reflexivity.
Defined.

(** X4. A failure of [decode] is one of four things: the 401 "Could not
    validate credentials" of the handler; the 401 "Invalid scope for token",
    for a token the codec accepted with another scope; [KeyError] for a
    token the codec accepted without any scope; or an exception of the
    codec that its error class does not cover, passed on unchanged.  The
    world is left as it was. *)
Theorem decode_failure_kinds (self : Token) (tok : string) (sc : TokenScopes)
    (w w' : World) (e : exn) :
  TokenOps.decode self tok sc w = (inl e, w') ->
  let accepted :=
    coder_decode (coder self) (now w) tok (secret self)
      [ALGORITHM (config self)] in
  w' = w
  /\ (e = HTTPException HTTP_401_UNAUTHORIZED
            "Could not validate credentials" None
      \/ (e = HTTPException HTTP_401_UNAUTHORIZED "Invalid scope for token" None
          /\ exists p v, accepted = inr p /\ p !! "scope" = Some v
                         /\ v <> VStr (scope_value sc))
      \/ (e = KeyError "scope"
          /\ exists p, accepted = inr p /\ p !! "scope" = None)
      \/ (accepted = inl e /\ coder_error (coder self) e = false)).
Proof.
  unfold TokenOps.decode, TokenOps.decode_body, subscript. run_M.
  destruct (coder_decode _ _ _ _ _) as [e0|p]; simpl.
  - destruct (coder_error _ e0) eqn:Hc; intros [= <- <-];
      (split; [reflexivity|]).
    + left. reflexivity.
    + right. right. right. split; [reflexivity|exact Hc].
  - destruct (p !! "scope") as [v|] eqn:Hs.
    + unfold value_eqb.
      destruct (bool_decide_reflect (v = VStr (scope_value sc))) as [->|Hne];
        [discriminate|].
      destruct (coder_error _ _); intros [= <- <-];
        (split; [reflexivity|]).
      * left. reflexivity.
      * right. left. split; [reflexivity|]. exists p, v. auto.
    + destruct (coder_error _ _); intros [= <- <-];
        (split; [reflexivity|]).
      * left. reflexivity.
      * right. right. left. split; [reflexivity|]. exists p. auto.
Qed.

Lemma decode_failure_kinds_witness :
  Doubles.world0 = Doubles.world0
  /\ (HTTPException 401 "Invalid scope for token" None
      = HTTPException HTTP_401_UNAUTHORIZED
          "Could not validate credentials" None
      \/ (HTTPException 401 "Invalid scope for token" None
          = HTTPException HTTP_401_UNAUTHORIZED "Invalid scope for token" None
          /\ exists p v,
               coder_decode (coder Doubles.issuer) (now Doubles.world0)
                 Doubles.refresh_tok (secret Doubles.issuer)
                 [ALGORITHM (config Doubles.issuer)] = inr p
               /\ p !! "scope" = Some v /\ v <> VStr (scope_value ACCESS))
      \/ (HTTPException 401 "Invalid scope for token" None = KeyError "scope"
          /\ exists p,
               coder_decode (coder Doubles.issuer) (now Doubles.world0)
                 Doubles.refresh_tok (secret Doubles.issuer)
                 [ALGORITHM (config Doubles.issuer)] = inr p
               /\ p !! "scope" = None)
      \/ (coder_decode (coder Doubles.issuer) (now Doubles.world0)
            Doubles.refresh_tok (secret Doubles.issuer)
            [ALGORITHM (config Doubles.issuer)]
          = inl (HTTPException 401 "Invalid scope for token" None)
          /\ coder_error (coder Doubles.issuer)
               (HTTPException 401 "Invalid scope for token" None) = false)).
Proof.
  apply (decode_failure_kinds Doubles.issuer Doubles.refresh_tok ACCESS
           Doubles.world0 Doubles.world0
           (HTTPException 401 "Invalid scope for token" None)).
  vm_compute. reflexivity.
Defined.

(** X5. A token the codec accepts but whose claims have no [scope] key
    makes [decode] raise [KeyError], unless the codec's error class covers
    [KeyError]; with the JWT error class it reaches the caller as it is. *)
Theorem decode_missing_scope (self : Token) (tok : string) (sc : TokenScopes)
    (w : World) (payload : dict) :
  coder_decode (coder self) (now w) tok (secret self)
    [ALGORITHM (config self)] = inr payload ->
  payload !! "scope" = None ->
  TokenOps.decode self tok sc w
  = if coder_error (coder self) (KeyError "scope")
    then (inl (HTTPException HTTP_401_UNAUTHORIZED
                 "Could not validate credentials" None), w)
    else (inl (KeyError "scope"), w).
Proof.
  intros Hd Hs. unfold TokenOps.decode, TokenOps.decode_body, subscript.
  run_M. rewrite Hd, Hs. destruct (coder_error _ _); reflexivity.
Qed.

Lemma decode_missing_scope_witness :
  TokenOps.decode Doubles.issuer Scenarios.unscoped_tok ACCESS Doubles.world0
  = (inl (KeyError "scope"), Doubles.world0).
Proof.
  apply (decode_missing_scope Doubles.issuer Scenarios.unscoped_tok ACCESS
           Doubles.world0 {["email" := VStr "a@x.com"]}).
  - vm_compute. reflexivity.
  - reflexivity.
Defined.

(** ** Further properties of the service *)

(** X6. [validate] answers [True] exactly when there is a user and the
    password check answers [True] for the stored digest; it raises exactly
    when there is a user and the password check raises. *)
Theorem validate_true_iff (self : Auth) (user : option User)
    (credentials : OAuth2PasswordRequestForm) :
  (AuthOps.validate self user credentials = inr true
   <-> exists u, user = Some u
                 /\ PasswordOps.verify (auth_password self)
                      (form_password credentials) (password u) = inr true)
  /\ (forall e,
       AuthOps.validate self user credentials = inl e
       <-> exists u, user = Some u
                     /\ PasswordOps.verify (auth_password self)
                          (form_password credentials) (password u) = inl e).
Proof.
  unfold AuthOps.validate. destruct user as [u|].
  - destruct (PasswordOps.verify _ _ _) as [e0|b] eqn:Hv.
    + split; [split; [discriminate|]|intros e; split].
      * intros (u' & [= <-] & H). rewrite Hv in H. discriminate H.
      * intros [= <-]. exists u. auto.
      * intros (u' & [= <-] & H). rewrite Hv in H. exact H.
    + split; [split|intros e; split; [destruct b; discriminate|]].
      * destruct b; [|discriminate]. intros _. exists u. auto.
      * intros (u' & [= <-] & H). rewrite Hv in H.
        injection H as ->. reflexivity.
      * intros (u' & [= <-] & H). rewrite Hv in H. discriminate H.
  - split; [split; [discriminate|]|intros e; split; [discriminate|]];
      intros (u' & Hu & _); discriminate Hu.
Qed.

Section ServiceFacts.

Variable self : Auth.

(** The claims [__generate_tokens] signs for a user, and the lifetimes it
    gets from the configuration. *)
Lemma generate_tokens_success (u : User) (w : World) (ta tr : string) :
  let cfg := config (auth_token self) in
  let ea := now w + timedelta_minutes
                      (applicable_default cfg (ACCESS_EXPIRED cfg)) in
  let er := now w + timedelta_minutes
                      (applicable_default cfg (REFRESH_EXPIRED cfg)) in
  coder_encode (coder (auth_token self))
    (TokenOps.to_encode_data {["email" := VStr (email u)]} ACCESS (now w) ea)
    (secret (auth_token self)) (ALGORITHM cfg) = inr ta ->
  coder_encode (coder (auth_token self))
    (TokenOps.to_encode_data {["email" := VStr (email u)]} REFRESH (now w) er)
    (secret (auth_token self)) (ALGORITHM cfg) = inr tr ->
  AuthOps.generate_tokens self u w
  = (inr {| access := (ta, ea); refresh := (tr, er); type := "bearer" |},
     {| users := users w;
        tokens := tokens w ++ [{| refresh_str := tr; rec_expired_at := er;
                                  owner_id := user_id u |}];
        now := now w;
        log := (log w ++ [EvAppend {| refresh_str := tr; rec_expired_at := er;
                                      owner_id := user_id u |}])
               ++ [EvCommit] |}).
Proof.
  intros cfg ea er Ha Hr.
  unfold AuthOps.generate_tokens, TokenOps.create_access,
    TokenOps.create_refresh.
  unfold mbind at 1, M_bind at 1.
  rewrite create_eq, expiry_falsy by reflexivity.
  unfold issued. fold cfg ea. rewrite Ha.
  unfold mbind at 1, M_bind at 1.
  rewrite create_eq, expiry_falsy by reflexivity.
  unfold issued. fold cfg er. rewrite Hr.
  reflexivity.
Qed.

Lemma delete_row_length (r : TokenDBModel) (l : list TokenDBModel) :
  In r l -> S (length (delete_row r l)) = length l.
Proof.
  induction l as [|x l IH]; simpl; [tauto|].
  intros [-> | Hin].
  - rewrite bool_decide_eq_true_2 by reflexivity. reflexivity.
  - destruct (bool_decide (x = r)); [reflexivity|].
    simpl. rewrite IH by exact Hin. reflexivity.
Qed.

Lemma find_app_none {A : Type} (f : A -> bool) (l l' : list A) :
  find f l = None -> find f (l ++ l') = find f l'.
Proof.
  induction l as [|x l IH]; simpl; [reflexivity|].
  destruct (f x); [discriminate|exact IH].
Qed.

Lemma first_record_found (tok : string) (w : World) (r : TokenDBModel)
    (owner : option User) :
  first_record tok w = Some (r, owner) ->
  In r (tokens w) /\ refresh_str r = tok
  /\ owner = find (fun u => Z.eqb (user_id u) (owner_id r)) (users w).
Proof.
  unfold first_record.
  destruct (find _ (tokens w)) as [r0|] eqn:Hf; [|discriminate].
  intros [= <- <-]. apply find_some in Hf as [Hin Heq].
  apply String.eqb_eq in Heq. auto.
Qed.

Lemma user_ne_false (owner : option User) (u : User) :
  user_ne owner u = false ->
  exists a, owner = Some a /\ user_id a = user_id u.
Proof.
  destruct owner as [a|]; simpl; [|discriminate].
  intros H. apply negb_false_iff, Z.eqb_eq in H. eauto.
Qed.

(** [refresh] stops at a token that fails verification. *)
Lemma refresh_stops_at_decode (tok : string) (w w' : World) (e : exn) :
  TokenOps.decode_refresh (auth_token self) tok w = (inl e, w') ->
  AuthOps.refresh self tok w = (inl e, w').
Proof.
  intros Hd. unfold AuthOps.refresh. unfold mbind at 1, M_bind at 1.
  rewrite Hd. reflexivity.
Qed.

(** The outcome of [decode] depends on the world through the clock only. *)
Lemma decode_same_clock (tok : string) (sc : TokenScopes) (w w' : World)
    (res : Result dict) :
  TokenOps.decode (auth_token self) tok sc w = (res, w) ->
  now w' = now w ->
  TokenOps.decode (auth_token self) tok sc w' = (res, w').
Proof.
  unfold TokenOps.decode, TokenOps.decode_body, subscript. run_M.
  intros H Hn. rewrite Hn.
  destruct (coder_decode _ _ _ _ _) as [e|p].
  - destruct (coder_error _ e); injection H as <-; reflexivity.
  - destruct (p !! "scope") as [v|].
    + destruct (value_eqb v _); [injection H as <-; reflexivity|].
      destruct (coder_error _ _); injection H as <-; reflexivity.
    + destruct (coder_error _ _); injection H as <-; reflexivity.
Qed.

End ServiceFacts.

(** X7. A login with the name or the email of a user and the right
    password returns a bearer pair whose tokens are the codec's encodings of
    the claims [email], [iat], [exp] and [scope], the subject being the
    user's email whichever name was typed, with the configured lifetimes;
    it stores one new record, holding the refresh token and its expiry for
    that user, and commits.  The access token is not stored. *)
Theorem authenticate_success (self : Auth)
    (credentials : OAuth2PasswordRequestForm) (w : World) (u : User)
    (ta tr : string) :
  let cfg := config (auth_token self) in
  let ea := now w + timedelta_minutes
                      (applicable_default cfg (ACCESS_EXPIRED cfg)) in
  let er := now w + timedelta_minutes
                      (applicable_default cfg (REFRESH_EXPIRED cfg)) in
  let r' := {| refresh_str := tr; rec_expired_at := er;
               owner_id := user_id u |} in
  find (user_matches (VStr (form_username credentials))) (users w) = Some u ->
  PasswordOps.verify (auth_password self) (form_password credentials)
    (password u) = inr true ->
  coder_encode (coder (auth_token self))
    (TokenOps.to_encode_data {["email" := VStr (email u)]} ACCESS (now w) ea)
    (secret (auth_token self)) (ALGORITHM cfg) = inr ta ->
  coder_encode (coder (auth_token self))
    (TokenOps.to_encode_data {["email" := VStr (email u)]} REFRESH (now w) er)
    (secret (auth_token self)) (ALGORITHM cfg) = inr tr ->
  AuthOps.authenticate self credentials w
  = (inr {| access := (ta, ea); refresh := (tr, er); type := "bearer" |},
     {| users := users w; tokens := (tokens w ++ [r'])%list; now := now w;
        log := (log w ++ [EvAppend r'; EvCommit])%list |}).
Proof.
  intros cfg ea er r' Hu Hv Ha Hr.
  unfold AuthOps.authenticate, AuthOps.get_user, AuthOps.validate. run_M.
  rewrite Hu, Hv. simpl.
  rewrite (generate_tokens_success self u w ta tr Ha Hr).
  rewrite <- app_assoc. reflexivity.
Qed.

Lemma authenticate_success_witness :
  AuthOps.authenticate Doubles.auth Scenarios.by_username Doubles.world0
  = (inr {| access := (Scenarios.access_tok,
                       now Doubles.world0 + timedelta_minutes 30);
            refresh := (Doubles.refresh_tok,
                        now Doubles.world0 + timedelta_minutes 1440);
            type := "bearer" |},
     {| users := [Doubles.alice]; tokens := [Scenarios.alice_record];
        now := now Doubles.world0;
        log := [EvAppend Scenarios.alice_record; EvCommit] |}).
Proof.
  apply (authenticate_success Doubles.auth Scenarios.by_username
           Doubles.world0 Doubles.alice Scenarios.access_tok
           Doubles.refresh_tok); reflexivity.
Defined.

(** X8. When the user exists and the password context raises on the stored
    digest, [authenticate] raises that exception, not
    [invalid_credential_error], and writes nothing. *)
Theorem authenticate_context_error (self : Auth)
    (credentials : OAuth2PasswordRequestForm) (w : World) (u : User)
    (e : exn) :
  find (user_matches (VStr (form_username credentials))) (users w) = Some u ->
  PasswordOps.verify (auth_password self) (form_password credentials)
    (password u) = inl e ->
  AuthOps.authenticate self credentials w = (inl e, w).
Proof.
  intros Hu Hv.
  unfold AuthOps.authenticate, AuthOps.get_user, AuthOps.validate. run_M.
  rewrite Hu, Hv. reflexivity.
Qed.

Lemma authenticate_context_error_witness :
  AuthOps.authenticate Doubles.auth
    {| form_username := "bob"; form_password := "right" |}
    Scenarios.world_bob
  = (inl (ValueError "hash could not be identified"), Scenarios.world_bob).
Proof.
  apply (authenticate_context_error Doubles.auth
           {| form_username := "bob"; form_password := "right" |}
           Scenarios.world_bob Scenarios.bob); reflexivity.
Defined.

(** X9. A login that fails, for whatever reason, leaves the world as it
    was: nothing is stored before both tokens have been encoded. *)
Theorem authenticate_failure_writes_nothing (self : Auth)
    (credentials : OAuth2PasswordRequestForm) (w w' : World) (e : exn) :
  AuthOps.authenticate self credentials w = (inl e, w') -> w' = w.
Proof.
  unfold AuthOps.authenticate, AuthOps.get_user. run_M.
  destruct (AuthOps.validate self _ credentials) as [e0|ok];
    [intros [= _ <-]; reflexivity|].
  destruct ok; simpl; [|intros [= _ <-]; reflexivity].
  destruct (find _ (users w)) as [u|]; [|intros [= _ <-]; reflexivity].
  intros H. apply generate_tokens_effect in H. exact H.
Qed.

Lemma authenticate_failure_writes_nothing_witness :
  AuthOps.authenticate Doubles.auth
    {| form_username := "a@x.com"; form_password := "wrong" |} Doubles.world0
  = (inl (HTTPException 401 "Invalid username or password" None),
     Doubles.world0)
  /\ Doubles.world0 = Doubles.world0.
Proof.
  split; [reflexivity|].
  apply (authenticate_failure_writes_nothing Doubles.auth
           {| form_username := "a@x.com"; form_password := "wrong" |}
           Doubles.world0 Doubles.world0
           (HTTPException 401 "Invalid username or password" None)).
  reflexivity.
Defined.

(** X10. A refresh token that fails verification (expired, forged, wrong
    scope) is answered with the error of the verification before the
    session is touched: its record, if there is one, stays where it is. *)
Theorem refresh_decode_failure (self : Auth) (tok : string) (w w' : World)
    (e : exn) :
  TokenOps.decode_refresh (auth_token self) tok w = (inl e, w') ->
  AuthOps.refresh self tok w = (inl e, w)
  /\ first_record tok (snd (AuthOps.refresh self tok w)) = first_record tok w.
Proof.
  intros Hd. pose proof (decode_world _ _ _ _ _ _ Hd) as ->.
  rewrite (refresh_stops_at_decode self tok w w e Hd).
  split; reflexivity.
Qed.

Lemma refresh_decode_failure_witness :
  AuthOps.refresh Doubles.auth Doubles.refresh_tok Scenarios.world_late
  = (inl (HTTPException 401 "Could not validate credentials" None),
     Scenarios.world_late)
  /\ first_record Doubles.refresh_tok
       (snd (AuthOps.refresh Doubles.auth Doubles.refresh_tok
               Scenarios.world_late))
     = first_record Doubles.refresh_tok Scenarios.world_late.
Proof.
  apply (refresh_decode_failure Doubles.auth Doubles.refresh_tok
           Scenarios.world_late Scenarios.world_late
           (HTTPException 401 "Could not validate credentials" None)).
  vm_compute. reflexivity.
Defined.

(** The world a successful [refresh] leaves behind. *)
Lemma refresh_success_world (self : Auth) (tok : string) (w w' : World)
    (r : TokenDBModel) (owner : option User) (tp : TokenPairModel) :
  first_record tok w = Some (r, owner) ->
  AuthOps.refresh self tok w = (inr tp, w') ->
  let r' := {| refresh_str := fst (refresh tp);
               rec_expired_at := snd (refresh tp);
               owner_id := owner_id r |} in
  type tp = "bearer"
  /\ w' = {| users := users w;
             tokens := delete_row r (tokens w) ++ [r'];
             now := now w;
             log := log w ++ [EvDelete r; EvCommit; EvAppend r'; EvCommit] |}.
Proof.
  intros Hr Hrun r'.
  destruct (TokenOps.decode_refresh (auth_token self) tok w)
    as [[e|payload] w0] eqn:Hd.
  { apply refresh_stops_at_decode in Hd. congruence. }
  pose proof (decode_world _ _ _ _ _ _ Hd) as ->.
  destruct (payload !! "email") as [key|] eqn:He.
  2:{ rewrite (refresh_without_subject self tok w payload Hd He) in Hrun.
      discriminate Hrun. }
  pose proof (refresh_after_decode self tok w payload key Hd He) as H.
  simpl in H. rewrite Hr, Hrun in H.
  destruct (find (user_matches key) (users w)) as [u|]; simpl in H;
    [|discriminate H].
  destruct (user_ne owner u) eqn:Hne; [discriminate H|].
  symmetry in H. apply generate_tokens_effect in H as [Hty ->]. simpl.
  apply user_ne_false in Hne as (a & -> & Hid).
  apply first_record_found in Hr as (Hin & _ & Ho).
  symmetry in Ho. apply find_some in Ho as [_ Ho]. apply Z.eqb_eq in Ho.
  assert (user_id u = owner_id r) as Hown by congruence.
  subst r'. rewrite Hown, <- !app_assoc. split; [exact Hty|reflexivity].
Qed.

(** X11. A refresh that succeeds replaces one record by one: the table
    keeps its size, the record found is gone from its place, and the new
    record, appended last, holds the new refresh token and its expiry for
    the user who owned the old one. *)
Theorem refresh_rotation (self : Auth) (tok : string) (w w' : World)
    (r : TokenDBModel) (owner : option User) (tp : TokenPairModel) :
  first_record tok w = Some (r, owner) ->
  AuthOps.refresh self tok w = (inr tp, w') ->
  let r' := {| refresh_str := fst (refresh tp);
               rec_expired_at := snd (refresh tp);
               owner_id := owner_id r |} in
  tokens w' = (delete_row r (tokens w) ++ [r'])%list
  /\ length (tokens w') = length (tokens w)
  /\ type tp = "bearer".
Proof.
  intros Hr Hrun r'.
  destruct (refresh_success_world self tok w w' r owner tp Hr Hrun)
    as [Hty ->]. simpl.
  split; [reflexivity|]. split; [|exact Hty].
  apply first_record_found in Hr as (Hin & _ & _).
  rewrite length_app. simpl.
  rewrite <- (delete_row_length r (tokens w) Hin). lia.
Qed.

Lemma refresh_rotation_witness :
  exists tp w',
    AuthOps.refresh Doubles.auth Doubles.refresh_tok Doubles.world1
    = (inr tp, w')
    /\ length (tokens w') = 1%nat.
Proof.
  destruct (AuthOps.refresh Doubles.auth Doubles.refresh_tok Doubles.world1)
    as [[e|tp] w'] eqn:Hrun.
  - exfalso. vm_compute in Hrun. discriminate Hrun.
  - exists tp, w'. split; [reflexivity|].
    apply (refresh_rotation Doubles.auth Doubles.refresh_tok Doubles.world1
             w' Scenarios.alice_record (Some Doubles.alice) tp).
    + vm_compute. reflexivity.
    + exact Hrun.
Defined.

(** X12. A refresh token is good for one use: once a refresh with it has
    succeeded, and provided no second record held the same string and the
    new refresh token is another string, a further refresh with it in the
    resulting world raises [credentionals_exception] and changes nothing. *)
Theorem refresh_single_use (self : Auth) (tok : string) (w w1 : World)
    (r : TokenDBModel) (owner : option User) (tp : TokenPairModel) :
  first_record tok w = Some (r, owner) ->
  find (fun x => String.eqb (refresh_str x) tok) (delete_row r (tokens w))
    = None ->
  AuthOps.refresh self tok w = (inr tp, w1) ->
  fst (refresh tp) <> tok ->
  first_record tok w1 = None
  /\ AuthOps.refresh self tok w1 = (inl AuthOps.credentionals_exception, w1).
Proof.
  intros Hr Hone Hrun Hnew.
  destruct (TokenOps.decode_refresh (auth_token self) tok w)
    as [[e|payload] w0] eqn:Hd.
  { apply refresh_stops_at_decode in Hd. congruence. }
  pose proof (decode_world _ _ _ _ _ _ Hd) as ->.
  destruct (payload !! "email") as [key|] eqn:He.
  2:{ rewrite (refresh_without_subject self tok w payload Hd He) in Hrun.
      discriminate Hrun. }
  destruct (refresh_success_world self tok w w1 r owner tp Hr Hrun)
    as [_ Hw].
  assert (now w1 = now w) as Hn by (rewrite Hw; reflexivity).
  assert (first_record tok w1 = None) as Hnone.
  { unfold first_record. rewrite Hw. simpl. rewrite (find_app_none _ _ _ Hone). simpl.
    destruct (String.eqb_spec (fst (refresh tp)) tok); [contradiction|].
    reflexivity. }
  split; [exact Hnone|].
  pose proof (decode_same_clock self tok REFRESH w w1 (inr payload) Hd Hn)
    as Hd1.
  pose proof (refresh_after_decode self tok w1 payload key Hd1 He) as H.
  simpl in H. rewrite Hnone in H. rewrite H.
  destruct (find (user_matches key) (users w1)); reflexivity.
Qed.

Lemma refresh_single_use_witness :
  exists tp w1,
    AuthOps.refresh Doubles.auth Doubles.refresh_tok Doubles.world1
    = (inr tp, w1)
    /\ AuthOps.refresh Doubles.auth Doubles.refresh_tok w1
       = (inl AuthOps.credentionals_exception, w1).
Proof.
  destruct (AuthOps.refresh Doubles.auth Doubles.refresh_tok Doubles.world1)
    as [[e|tp] w1] eqn:Hrun.
  - exfalso. vm_compute in Hrun. discriminate Hrun.
  - exists tp, w1. split; [reflexivity|].
    apply (refresh_single_use Doubles.auth Doubles.refresh_tok Doubles.world1
             w1 Scenarios.alice_record (Some Doubles.alice) tp).
    + vm_compute. reflexivity.
    + vm_compute. reflexivity.
    + exact Hrun.
    + vm_compute in Hrun. injection Hrun as <- _. vm_compute. discriminate.
Defined.

(** X13. A refresh token that verifies but has no record is refused with
    [credentionals_exception] whether or not its subject is a user, and the
    session is not touched. *)
Theorem refresh_without_record (self : Auth) (tok : string) (w : World)
    (payload : dict) (key : value) :
  TokenOps.decode_refresh (auth_token self) tok w = (inr payload, w) ->
  payload !! "email" = Some key ->
  first_record tok w = None ->
  AuthOps.refresh self tok w = (inl AuthOps.credentionals_exception, w).
Proof.
  intros Hd He Hr.
  pose proof (refresh_after_decode self tok w payload key Hd He) as H.
  simpl in H. rewrite Hr in H. rewrite H.
  destruct (find (user_matches key) (users w)); reflexivity.
Qed.

Lemma refresh_without_record_witness :
  AuthOps.refresh Doubles.auth Doubles.refresh_tok Doubles.world0
  = (inl AuthOps.credentionals_exception, Doubles.world0).
Proof.
  apply (refresh_without_record Doubles.auth Doubles.refresh_tok
           Doubles.world0 (Doubles.alice_claims REFRESH 1440)
           (VStr "a@x.com")).
  - vm_compute. reflexivity.
  - reflexivity.
  - reflexivity.
Defined.

(** X14. The user [__call__] returns is a row of the user table whose
    email or username is the string the verified access token carries as
    its subject; the world is left as it was. *)
Theorem call_sound (self : Auth) (tok : string) (w w' : World) (u : User) :
  AuthOps.call self tok w = (inr u, w') ->
  w' = w
  /\ In u (users w)
  /\ exists payload s,
       TokenOps.decode_access (auth_token self) tok w = (inr payload, w)
       /\ payload !! "email" = Some (VStr s)
       /\ (email u = s \/ username u = s).
Proof.
  intros Hrun.
  destruct (TokenOps.decode_access (auth_token self) tok w)
    as [[e|payload] w0] eqn:Hd.
  { rewrite (call_decode_failure self tok w w0 e Hd) in Hrun.
    discriminate Hrun. }
  pose proof (decode_world _ _ _ _ _ _ Hd) as ->.
  rewrite (call_after_decode self tok w payload Hd) in Hrun.
  destruct (payload !! "email") as [key|] eqn:He; [|discriminate Hrun].
  destruct (value_eqb key VNone); [discriminate Hrun|].
  destruct (find (user_matches key) (users w)) as [u0|] eqn:Hf;
    [|discriminate Hrun].
  injection Hrun as <- <-.
  apply find_some in Hf as [Hin Hm].
  split; [reflexivity|]. split; [exact Hin|].
  destruct key as [|s|z|t]; simpl in Hm; try discriminate Hm.
  exists payload, s. split; [reflexivity|]. split; [exact He|].
  apply orb_true_iff in Hm as [Hm|Hm]; apply String.eqb_eq in Hm; auto.
Qed.

Lemma call_sound_witness :
  AuthOps.call Doubles.auth Scenarios.access_tok Doubles.world0
  = (inr Doubles.alice, Doubles.world0)
  /\ In Doubles.alice (users Doubles.world0).
Proof.
  assert (AuthOps.call Doubles.auth Scenarios.access_tok Doubles.world0
          = (inr Doubles.alice, Doubles.world0)) as Hrun
    by (vm_compute; reflexivity).
  split; [exact Hrun|].
  exact (proj1 (proj2 (call_sound Doubles.auth Scenarios.access_tok
                         Doubles.world0 Doubles.world0 Doubles.alice Hrun))).
Defined.

(** What an operation may do to the world: the user table and the clock
    stay, the session history grows at its end. *)
Lemma frame_refl (w : World) :
  users w = users w /\ now w = now w
  /\ exists evs, log w = (log w ++ evs)%list.
Proof. repeat split. exists []. rewrite app_nil_r. reflexivity. Qed.

Lemma generate_tokens_frame (self : Auth) (u : User) (w w' : World)
    (res : Result TokenPairModel) :
  AuthOps.generate_tokens self u w = (res, w') ->
  users w' = users w /\ now w' = now w
  /\ exists evs, log w' = (log w ++ evs)%list.
Proof.
  intros H. apply generate_tokens_effect in H. destruct res as [e|tp].
  - subst w'. apply frame_refl.
  - destruct H as [_ ->]. simpl. repeat split.
    eexists. rewrite <- app_assoc. reflexivity.
Qed.

Lemma refresh_frame (self : Auth) (tok : string) (w w' : World)
    (res : Result TokenPairModel) :
  AuthOps.refresh self tok w = (res, w') ->
  users w' = users w /\ now w' = now w
  /\ exists evs, log w' = (log w ++ evs)%list.
Proof.
  intros Hrun.
  destruct (TokenOps.decode_refresh (auth_token self) tok w)
    as [[e|payload] w0] eqn:Hd.
  { pose proof (decode_world _ _ _ _ _ _ Hd) as ->.
    rewrite (refresh_stops_at_decode self tok w w e Hd) in Hrun.
    injection Hrun as _ <-. apply frame_refl. }
  pose proof (decode_world _ _ _ _ _ _ Hd) as ->.
  destruct (payload !! "email") as [key|] eqn:He.
  2:{ rewrite (refresh_without_subject self tok w payload Hd He) in Hrun.
      injection Hrun as _ <-. apply frame_refl. }
  rewrite (refresh_after_decode self tok w payload key Hd He) in Hrun.
  assert (forall w1,
             w1 = match first_record tok w with
                  | Some (r, _) => consumed r w
                  | None => w
                  end ->
             users w1 = users w /\ now w1 = now w
             /\ exists evs, log w1 = (log w ++ evs)%list) as Hcons.
  { intros w1 ->. destruct (first_record tok w) as [[r o]|];
      [|apply frame_refl].
    simpl. repeat split. eexists. rewrite <- app_assoc. reflexivity. }
  specialize (Hcons _ eq_refl). destruct Hcons as (Hu & Hn & evs & Hl).
  destruct (AuthOps.refresh_rejected _ _).
  - injection Hrun as _ <-. eauto.
  - destruct (find (user_matches key) (users w)) as [u|].
    + apply generate_tokens_frame in Hrun as (Hu' & Hn' & evs' & Hl').
      split; [congruence|]. split; [congruence|].
      exists (evs ++ evs')%list. rewrite Hl', Hl, app_assoc. reflexivity.
    + injection Hrun as _ <-. eauto.
Qed.

Lemma authenticate_frame (self : Auth)
    (credentials : OAuth2PasswordRequestForm) (w w' : World)
    (res : Result TokenPairModel) :
  AuthOps.authenticate self credentials w = (res, w') ->
  users w' = users w /\ now w' = now w
  /\ exists evs, log w' = (log w ++ evs)%list.
Proof.
  unfold AuthOps.authenticate, AuthOps.get_user. run_M.
  destruct (AuthOps.validate self _ credentials) as [e0|ok];
    [intros [= _ <-]; apply frame_refl|].
  destruct ok; simpl; [|intros [= _ <-]; apply frame_refl].
  destruct (find _ (users w)) as [u|]; [|intros [= _ <-]; apply frame_refl].
  apply generate_tokens_frame.
Qed.

Lemma call_frame (self : Auth) (tok : string) (w w' : World)
    (res : Result User) :
  AuthOps.call self tok w = (res, w') -> w' = w.
Proof.
  intros Hrun.
  destruct (TokenOps.decode_access (auth_token self) tok w)
    as [[e|payload] w0] eqn:Hd.
  { pose proof (decode_world _ _ _ _ _ _ Hd) as ->.
    rewrite (call_decode_failure self tok w w e Hd) in Hrun. congruence. }
  pose proof (decode_world _ _ _ _ _ _ Hd) as ->.
  rewrite (call_after_decode self tok w payload Hd) in Hrun.
  destruct (payload !! "email") as [key|]; [|congruence].
  destruct (value_eqb key VNone); [congruence|].
  destruct (find _ _); congruence.
Qed.

(** X15. No operation of the service changes the user table or the clock,
    and the session history only grows: [refresh] and [authenticate] add
    events at its end, [__call__] changes nothing at all. *)
Theorem service_frame (self : Auth) :
  (forall tok w res w',
      AuthOps.refresh self tok w = (res, w') ->
      users w' = users w /\ now w' = now w
      /\ exists evs, log w' = (log w ++ evs)%list)
  /\ (forall credentials w res w',
      AuthOps.authenticate self credentials w = (res, w') ->
      users w' = users w /\ now w' = now w
      /\ exists evs, log w' = (log w ++ evs)%list)
  /\ (forall tok w res w', AuthOps.call self tok w = (res, w') -> w' = w).
Proof.
  split; [|split].
  - intros tok w res w'. apply refresh_frame.
  - intros credentials w res w'. apply authenticate_frame.
  - intros tok w res w'. apply call_frame.
Qed.

(** X16. Login, then resolve: when a login succeeds and the codec accepts
    the access token it made, handing back its scope and subject, and the
    user's email is not shadowed by an earlier row, [__call__] with that
    access token in the world the login left returns the user who logged
    in. *)
Theorem login_then_resolve (self : Auth)
    (credentials : OAuth2PasswordRequestForm) (w w1 : World) (u : User)
    (tp : TokenPairModel) (payload : dict) :
  find (user_matches (VStr (form_username credentials))) (users w) = Some u ->
  AuthOps.authenticate self credentials w = (inr tp, w1) ->
  coder_decode (coder (auth_token self)) (now w) (fst (access tp))
    (secret (auth_token self)) [ALGORITHM (config (auth_token self))]
    = inr payload ->
  payload !! "scope" = Some (VStr (scope_value ACCESS)) ->
  payload !! "email" = Some (VStr (email u)) ->
  find (user_matches (VStr (email u))) (users w) = Some u ->
  AuthOps.call self (fst (access tp)) w1 = (inr u, w1).
Proof.
  intros Hu Hrun Hdec Hsc Hem Hfind.
  destruct (authenticate_frame self credentials w w1 (inr tp) Hrun)
    as (Husers & Hnow & _).
  assert (TokenOps.decode_access (auth_token self) (fst (access tp)) w1
          = (inr payload, w1)) as Hd.
  { unfold TokenOps.decode_access.
    rewrite <- Hnow in Hdec.
    rewrite (decode_accepted (auth_token self) _ ACCESS w1 payload _ Hdec Hsc).
    unfold value_eqb. rewrite bool_decide_eq_true_2 by reflexivity.
    reflexivity. }
  rewrite (call_after_decode self _ w1 payload Hd), Hem.
  unfold value_eqb. rewrite bool_decide_eq_false_2 by discriminate.
  rewrite Husers, Hfind. reflexivity.
Qed.

Lemma login_then_resolve_witness :
  exists tp w1,
    AuthOps.authenticate Doubles.auth Scenarios.by_username Doubles.world0
    = (inr tp, w1)
    /\ AuthOps.call Doubles.auth (fst (access tp)) w1 = (inr Doubles.alice, w1).
Proof.
  destruct (AuthOps.authenticate Doubles.auth Scenarios.by_username
              Doubles.world0) as [[e|tp] w1] eqn:Hrun.
  - exfalso. vm_compute in Hrun. discriminate Hrun.
  - exists tp, w1. split; [reflexivity|].
    apply (login_then_resolve Doubles.auth Scenarios.by_username
             Doubles.world0 w1 Doubles.alice tp
             (Doubles.alice_claims ACCESS 30)).
    + reflexivity.
    + exact Hrun.
    + vm_compute in Hrun. injection Hrun as <- _. vm_compute. reflexivity.
    + reflexivity.
    + reflexivity.
    + reflexivity.
Defined.

(** What [__generate_tokens] does when the codec cannot encode one of the
    two tokens: it raises the codec's exception and stores nothing. *)
Lemma generate_tokens_encode_error (self : Auth) (u : User) (w : World)
    (e : exn) :
  let cfg := config (auth_token self) in
  let enc sc ttl :=
    coder_encode (coder (auth_token self))
      (TokenOps.to_encode_data {["email" := VStr (email u)]} sc (now w)
         (now w + timedelta_minutes (applicable_default cfg ttl)))
      (secret (auth_token self)) (ALGORITHM cfg) in
  enc ACCESS (ACCESS_EXPIRED cfg) = inl e
  \/ ((exists ta, enc ACCESS (ACCESS_EXPIRED cfg) = inr ta)
      /\ enc REFRESH (REFRESH_EXPIRED cfg) = inl e) ->
  AuthOps.generate_tokens self u w = (inl e, w).
Proof.
  intros cfg enc H.
  unfold AuthOps.generate_tokens, TokenOps.create_access,
    TokenOps.create_refresh.
  unfold mbind at 1, M_bind at 1.
  rewrite create_eq, expiry_falsy by reflexivity.
  unfold issued. fold cfg. subst enc. simpl in H.
  destruct H as [Ha | [[ta Ha] Hr]]; rewrite Ha; [reflexivity|].
  unfold mbind at 1, M_bind at 1.
  rewrite create_eq, expiry_falsy by reflexivity.
  unfold issued. fold cfg. rewrite Hr. reflexivity.
Qed.

(** X17. What suffices for a refresh to succeed: the token verifies with a
    string subject, its record is found, the subject is a user and that
    user owns the record, and the codec encodes the two new tokens.  The
    pair returned is made for the user's email with the configured
    lifetimes, counted from the time of the refresh. *)
Theorem refresh_success (self : Auth) (tok : string) (w : World)
    (payload : dict) (s : string) (r : TokenDBModel) (owner : option User)
    (u : User) (ta tr : string) :
  let cfg := config (auth_token self) in
  let ea := now w + timedelta_minutes
                      (applicable_default cfg (ACCESS_EXPIRED cfg)) in
  let er := now w + timedelta_minutes
                      (applicable_default cfg (REFRESH_EXPIRED cfg)) in
  let r' := {| refresh_str := tr; rec_expired_at := er;
               owner_id := user_id u |} in
  TokenOps.decode_refresh (auth_token self) tok w = (inr payload, w) ->
  payload !! "email" = Some (VStr s) ->
  first_record tok w = Some (r, owner) ->
  find (user_matches (VStr s)) (users w) = Some u ->
  user_ne owner u = false ->
  coder_encode (coder (auth_token self))
    (TokenOps.to_encode_data {["email" := VStr (email u)]} ACCESS (now w) ea)
    (secret (auth_token self)) (ALGORITHM cfg) = inr ta ->
  coder_encode (coder (auth_token self))
    (TokenOps.to_encode_data {["email" := VStr (email u)]} REFRESH (now w) er)
    (secret (auth_token self)) (ALGORITHM cfg) = inr tr ->
  AuthOps.refresh self tok w
  = (inr {| access := (ta, ea); refresh := (tr, er); type := "bearer" |},
     {| users := users w;
        tokens := (delete_row r (tokens w) ++ [r'])%list;
        now := now w;
        log := (log w ++ [EvDelete r; EvCommit; EvAppend r'; EvCommit])%list |}).
Proof.
  intros cfg ea er r' Hd He Hr Hu Hne Ha Hrf.
  pose proof (refresh_after_decode self tok w payload (VStr s) Hd He) as H.
  simpl in H. rewrite Hr, Hu in H. simpl in H. rewrite Hne in H.
  rewrite H.
  rewrite (generate_tokens_success self u (consumed r w) ta tr Ha Hrf).
  simpl. rewrite <- !app_assoc. reflexivity.
Qed.

Lemma refresh_success_witness :
  exists ta tr,
    AuthOps.refresh Doubles.auth Doubles.refresh_tok Doubles.world1
    = (inr {| access := (ta, now Doubles.world1 + timedelta_minutes 30);
              refresh := (tr, now Doubles.world1 + timedelta_minutes 1440);
              type := "bearer" |},
       {| users := [Doubles.alice];
          tokens := [{| refresh_str := tr;
                        rec_expired_at :=
                          now Doubles.world1 + timedelta_minutes 1440;
                        owner_id := 1 |}];
          now := now Doubles.world1;
          log := [EvDelete Scenarios.alice_record; EvCommit;
                  EvAppend {| refresh_str := tr;
                              rec_expired_at :=
                                now Doubles.world1 + timedelta_minutes 1440;
                              owner_id := 1 |};
                  EvCommit] |}).
Proof.
  eexists _, _.
  apply (refresh_success Doubles.auth Doubles.refresh_tok Doubles.world1
           (Doubles.alice_claims REFRESH 1440) "a@x.com"
           Scenarios.alice_record (Some Doubles.alice) Doubles.alice).
  - vm_compute. reflexivity.
  - reflexivity.
  - vm_compute. reflexivity.
  - reflexivity.
  - reflexivity.
  - reflexivity.
  - reflexivity.
Defined.

(** X18. The counterpart of scope separation: a token issued for a scope
    verifies against that scope whenever the codec accepts it and hands
    back its scope tag, and [decode] returns the codec's claims as they
    are. *)
Theorem same_scope_accepts (self : Token) (data : dict) (sc : TokenScopes)
    (delta : option Z) (w w1 w2 : World) (tm : TokenModel) (payload : dict) :
  TokenOps.create self data sc delta w = (inr tm, w1) ->
  coder_decode (coder self) (now w2) (token tm) (secret self)
    [ALGORITHM (config self)] = inr payload ->
  payload !! "scope" = Some (VStr (scope tm)) ->
  TokenOps.decode self (token tm) sc w2 = (inr payload, w2).
Proof.
  intros Hc Hdec Hsc.
  rewrite create_eq in Hc. unfold issued in Hc.
  destruct (coder_encode _ _ _ _) as [e|t]; [discriminate|].
  injection Hc as <- _. simpl in *.
  rewrite (decode_accepted self t sc w2 payload _ Hdec Hsc).
  unfold value_eqb. rewrite bool_decide_eq_true_2 by reflexivity.
  reflexivity.
Qed.

Lemma same_scope_accepts_witness :
  TokenOps.decode Doubles.issuer Doubles.refresh_tok REFRESH Doubles.world1
  = (inr (Doubles.alice_claims REFRESH 1440), Doubles.world1).
Proof.
  apply (same_scope_accepts Doubles.issuer {["email" := VStr "a@x.com"]}
           REFRESH (Some 1440) Doubles.world0 Doubles.world0 Doubles.world1
           {| token := Doubles.refresh_tok;
              expired_at := now Doubles.world0 + timedelta_minutes 1440;
              scope := "refresh_token" |}
           (Doubles.alice_claims REFRESH 1440)).
  - reflexivity.
  - vm_compute. reflexivity.
  - reflexivity.
Defined.

(** X19. The model [create] returns agrees with the token it holds: the
    claims given to the codec have [exp] equal to the returned
    [expired_at], [iat] equal to the time of issue, and every other claim
    of the caller as it was passed; the world is left as it was. *)
Theorem create_claims (self : Token) (data : dict) (sc : TokenScopes)
    (delta : option Z) (w w1 : World) (tm : TokenModel) :
  TokenOps.create self data sc delta w = (inr tm, w1) ->
  w1 = w
  /\ exists claims,
       coder_encode (coder self) claims (secret self)
         (ALGORITHM (config self)) = inr (token tm)
       /\ claims !! "exp" = Some (VDatetime (expired_at tm))
       /\ claims !! "iat" = Some (VDatetime (now w))
       /\ (forall k, k <> "scope" -> k <> "exp" -> k <> "iat" ->
                     claims !! k = data !! k).
Proof.
  intros Hc. rewrite create_eq in Hc. unfold issued in Hc.
  destruct (coder_encode _ _ _ _) as [e|t] eqn:Henc; [discriminate|].
  injection Hc as <- <-. simpl. split; [reflexivity|].
  eexists. split; [exact Henc|].
  split; [apply to_encode_data_exp|].
  split; [|intros k; apply to_encode_data_other].
  unfold TokenOps.to_encode_data.
  rewrite !lookup_insert_ne by discriminate. apply lookup_insert_eq.
Qed.

Lemma create_claims_witness :
  exists claims,
    coder_encode Doubles.sexp_coder claims "s3cret" "HS256"
    = inr Doubles.refresh_tok
    /\ claims !! "exp"
       = Some (VDatetime (now Doubles.world0 + timedelta_minutes 1440)).
Proof.
  destruct (create_claims Doubles.issuer {["email" := VStr "a@x.com"]}
              REFRESH (Some 1440) Doubles.world0 Doubles.world0
              {| token := Doubles.refresh_tok;
                 expired_at := now Doubles.world0 + timedelta_minutes 1440;
                 scope := "refresh_token" |} eq_refl)
    as (_ & claims & Henc & Hexp & _).
  exists claims. split; assumption.
Defined.

(** X20. When the codec cannot encode the access token, or encodes it and
    cannot encode the refresh token, a login with the right password raises
    the codec's exception and stores nothing. *)
Theorem authenticate_encode_error (self : Auth)
    (credentials : OAuth2PasswordRequestForm) (w : World) (u : User)
    (e : exn) :
  let cfg := config (auth_token self) in
  let enc sc ttl :=
    coder_encode (coder (auth_token self))
      (TokenOps.to_encode_data {["email" := VStr (email u)]} sc (now w)
         (now w + timedelta_minutes (applicable_default cfg ttl)))
      (secret (auth_token self)) (ALGORITHM cfg) in
  find (user_matches (VStr (form_username credentials))) (users w) = Some u ->
  PasswordOps.verify (auth_password self) (form_password credentials)
    (password u) = inr true ->
  enc ACCESS (ACCESS_EXPIRED cfg) = inl e
  \/ ((exists ta, enc ACCESS (ACCESS_EXPIRED cfg) = inr ta)
      /\ enc REFRESH (REFRESH_EXPIRED cfg) = inl e) ->
  AuthOps.authenticate self credentials w = (inl e, w).
Proof.
  intros cfg enc Hu Hv Henc.
  unfold AuthOps.authenticate, AuthOps.get_user, AuthOps.validate. run_M.
  rewrite Hu, Hv. simpl.
  apply (generate_tokens_encode_error self u w e Henc).
Qed.

Lemma authenticate_encode_error_witness :
  AuthOps.authenticate Scenarios.picky_auth Scenarios.by_username
    Doubles.world0
  = (inl (JWTError "Algorithm not supported"), Doubles.world0).
Proof.
  apply (authenticate_encode_error Scenarios.picky_auth
           Scenarios.by_username Doubles.world0 Doubles.alice
           (JWTError "Algorithm not supported")).
  - reflexivity.
  - reflexivity.
  - left. reflexivity.
Defined.

(** X21. When a refresh passes every check and the codec then cannot
    encode a new token, the old record has already been deleted and the
    deletion committed: the call raises the codec's exception and leaves
    the user without a record. *)
Theorem refresh_encode_error (self : Auth) (tok : string) (w : World)
    (payload : dict) (s : string) (r : TokenDBModel) (owner : option User)
    (u : User) (e : exn) :
  let cfg := config (auth_token self) in
  let enc sc ttl :=
    coder_encode (coder (auth_token self))
      (TokenOps.to_encode_data {["email" := VStr (email u)]} sc (now w)
         (now w + timedelta_minutes (applicable_default cfg ttl)))
      (secret (auth_token self)) (ALGORITHM cfg) in
  TokenOps.decode_refresh (auth_token self) tok w = (inr payload, w) ->
  payload !! "email" = Some (VStr s) ->
  first_record tok w = Some (r, owner) ->
  find (user_matches (VStr s)) (users w) = Some u ->
  user_ne owner u = false ->
  enc ACCESS (ACCESS_EXPIRED cfg) = inl e
  \/ ((exists ta, enc ACCESS (ACCESS_EXPIRED cfg) = inr ta)
      /\ enc REFRESH (REFRESH_EXPIRED cfg) = inl e) ->
  AuthOps.refresh self tok w
  = (inl e, {| users := users w; tokens := delete_row r (tokens w);
               now := now w;
               log := (log w ++ [EvDelete r; EvCommit])%list |}).
Proof.
  intros cfg enc Hd He Hr Hu Hne Henc.
  pose proof (refresh_after_decode self tok w payload (VStr s) Hd He) as H.
  simpl in H. rewrite Hr, Hu in H. simpl in H. rewrite Hne in H.
  rewrite H.
  rewrite (generate_tokens_encode_error self u (consumed r w) e Henc).
  unfold consumed. rewrite <- app_assoc. reflexivity.
Qed.

Lemma refresh_encode_error_witness :
  AuthOps.refresh Scenarios.picky_auth Scenarios.legacy_tok
    Scenarios.world_legacy
  = (inl (JWTError "Algorithm not supported"),
     {| users := [Doubles.alice]; tokens := [];
        now := now Doubles.world0;
        log := [EvDelete Scenarios.legacy_record; EvCommit] |}).
Proof.
  apply (refresh_encode_error Scenarios.picky_auth Scenarios.legacy_tok
           Scenarios.world_legacy (Doubles.alice_claims REFRESH 1440)
           "a@x.com" Scenarios.legacy_record (Some Doubles.alice)
           Doubles.alice (JWTError "Algorithm not supported")).
  - vm_compute. reflexivity.
  - reflexivity.
  - vm_compute. reflexivity.
  - reflexivity.
  - reflexivity.
  - left. reflexivity.
Defined.
